(** * Voice resolution and the synthesis gateway of [TTS-prototype/main.py]

    A shallow embedding of the command-line flow and of the HTTP gateway
    of [main.py], together with the properties its specification states
    about them.

    Conventions of the embedding.
    - A Python [str] is a [string]; the text primitives ([strip],
      [lower], [in]) are given on ASCII text, which is what the
      program's own literals and keys are.  Bytes above 127 are carried
      through unchanged.
    - The values produced by [json.loads] are the type [pyval].  JSON
      numbers are the integral ones; Python floats are not represented.
    - A Python [dict] whose iteration order is observable (a decoded JSON
      object, the query parameters, the request payload) is the list of
      its items in insertion order, keys being pairwise distinct.  The
      voice map, which is only ever looked up, is a [gmap].
    - Effects are explicit: a computation reads an immutable [World]
      (environment, files, standard input, the remote provider) and
      yields the trace of the [event]s it performed together with a
      value or the exception that ended it.
    - [parse_args], [load_dotenv] and [get_requests] are taken as given:
      the program starts from the parsed arguments, the environment is
      the one [load_dotenv] leaves, and [requests] is installed.  The
      [json] module is a parameter, the class [JsonLib]. *)

From Stdlib Require Import ZArith Ascii Bool Lia.
From stdpp Require Import base strings list gmap pretty.

Open Scope Z_scope.

(** ** Python text primitives *)

Module Py.

(** [str.isspace] on the ASCII range: TAB, LF, VT, FF, CR, the four
    separators FS GS RS US, and the blank. *)
Definition is_space (c : ascii) : bool :=
  let n := nat_of_ascii c in
  ((9 <=? n)%nat && (n <=? 13)%nat) || ((28 <=? n)%nat && (n <=? 32)%nat).

Fixpoint lstrip (s : string) : string :=
  match s with
  | String c s' => if is_space c then lstrip s' else s
  | EmptyString => EmptyString
  end.

(** [rstrip] drops the trailing blanks: a blank is kept only when
    something is kept after it. *)
Fixpoint rstrip (s : string) : string :=
  match s with
  | String c s' =>
      match rstrip s' with
      | EmptyString => if is_space c then EmptyString else String c EmptyString
      | r => String c r
      end
  | EmptyString => EmptyString
  end.

(** [s.strip()] *)
Definition strip (s : string) : string := rstrip (lstrip s).

Definition lower_char (c : ascii) : ascii :=
  let n := nat_of_ascii c in
  if ((65 <=? n)%nat && (n <=? 90)%nat)%bool then ascii_of_nat (n + 32) else c.

(** [s.lower()] *)
Fixpoint lower (s : string) : string :=
  match s with
  | String c s' => String (lower_char c) (lower s')
  | EmptyString => EmptyString
  end.

(** [s.startswith(p)] *)
Fixpoint startswith (p s : string) : bool :=
  match p, s with
  | EmptyString, _ => true
  | String a p', String b s' => if Ascii.eqb a b then startswith p' s' else false
  | String _ _, EmptyString => false
  end.

(** [q in s] for two strings: [q] occurs in [s] as a contiguous run. *)
Fixpoint contains (q s : string) : bool :=
  startswith q s ||
  match s with
  | String _ s' => contains q s'
  | EmptyString => false
  end.

(** [sep.join(parts)] *)
Fixpoint join (sep : string) (parts : list string) : string :=
  match parts with
  | [] => ""
  | [p] => p
  | p :: rest => p +:+ sep +:+ join sep rest
  end.

Definition digit_val (c : ascii) : option Z :=
  let n := nat_of_ascii c in
  if ((48 <=? n)%nat && (n <=? 57)%nat)%bool then Some (Z.of_nat (n - 48)) else None.

(** The digits of an [int(...)] literal: decimal digits, single
    underscores allowed between two digits only. *)
Fixpoint parse_digits (s : string) (acc : Z) (after_digit : bool) : option Z :=
  match s with
  | EmptyString => if after_digit then Some acc else None
  | String c s' =>
      if Ascii.eqb c "_"%char
      then (if after_digit then
              match s' with
              | EmptyString => None
              | _ => parse_digits s' acc false
              end
            else None)
      else match digit_val c with
           | Some d => parse_digits s' (10 * acc + d) true
           | None => None
           end
  end.

(** [int(s)] in base ten; [None] stands for [ValueError]. *)
Definition int (s : string) : option Z :=
  match strip s with
  | String "+" r => parse_digits r 0 false
  | String "-" r => Z.opp <$> parse_digits r 0 false
  | r => parse_digits r 0 false
  end.

Definition hex_digit (n : nat) : ascii :=
  if (n <? 10)%nat then ascii_of_nat (48 + n) else ascii_of_nat (87 + n).

Definition squote : ascii := "'"%char.
Definition dquote : ascii := "034"%char.
Definition backslash : ascii := "\"%char.

Fixpoint has_char (c : ascii) (s : string) : bool :=
  match s with
  | String a s' => Ascii.eqb a c || has_char c s'
  | EmptyString => false
  end.

(** One character of [repr(s)], [q] being the chosen quote. *)
Definition repr_char (q c : ascii) : string :=
  let n := nat_of_ascii c in
  if Ascii.eqb c q || Ascii.eqb c backslash then String backslash (String c "")
  else if (n =? 9)%nat then String backslash "t"
  else if (n =? 10)%nat then String backslash "n"
  else if (n =? 13)%nat then String backslash "r"
  else if (n <? 32)%nat || (n =? 127)%nat
       then String backslash
              (String "x" (String (hex_digit (n / 16)) (String (hex_digit (n mod 16)) "")))
  else String c "".

Fixpoint repr_chars (q : ascii) (s : string) : string :=
  match s with
  | String c s' => repr_char q c +:+ repr_chars q s'
  | EmptyString => EmptyString
  end.

(** [repr(s)] of a string: single quotes, unless the text has a single
    quote and no double quote. *)
Definition repr_str (s : string) : string :=
  let q := if has_char squote s && negb (has_char dquote s) then dquote else squote in
  String q (repr_chars q s +:+ String q "").

End Py.

(** ** Python values *)

(** The values [json.loads] builds, which are also the values the
    program passes around where Python leaves the type open. *)
#[warnings="-register-all"]
Inductive pyval : Type :=
| VNone
| VBool (b : bool)
| VInt (n : Z)
| VStr (s : string)
| VList (xs : list pyval)
| VDict (items : list (string * pyval)).

(** Truth value of [v] in a condition ([if v], [v or w], [not v]). *)
Definition truthy (v : pyval) : bool :=
  match v with
  | VNone => false
  | VBool b => b
  | VInt n => negb (Z.eqb n 0)
  | VStr s => negb (String.eqb s "")
  | VList xs => match xs with [] => false | _ => true end
  | VDict items => match items with [] => false | _ => true end
  end.

(** [a or b] *)
Definition py_or (a b : pyval) : pyval := if truthy a then a else b.

(** [repr(v)] *)
Fixpoint py_repr (v : pyval) : string :=
  match v with
  | VNone => "None"
  | VBool true => "True"
  | VBool false => "False"
  | VInt n => pretty n
  | VStr s => Py.repr_str s
  | VList xs => "[" +:+ Py.join ", " (map py_repr xs) +:+ "]"
  | VDict items =>
      "{" +:+ Py.join ", "
                (map (fun kv => match kv with
                                | (k, x) => Py.repr_str k +:+ ": " +:+ py_repr x
                                end) items) +:+ "}"
  end.

(** [str(v)], which is also how an f-string renders [v]. *)
Definition py_str (v : pyval) : string :=
  match v with
  | VStr s => s
  | _ => py_repr v
  end.

(** An [Optional[str]] as a Python value. *)
Definition of_opt (o : option string) : pyval :=
  match o with
  | Some s => VStr s
  | None => VNone
  end.

Fixpoint assoc (k : string) (items : list (string * pyval)) : option pyval :=
  match items with
  | [] => None
  | (k', x) :: rest => if String.eqb k k' then Some x else assoc k rest
  end.

(** [d[k] = x] on an insertion-ordered dict: an existing key keeps its
    place. *)
Fixpoint dict_set (k : string) (x : pyval) (items : list (string * pyval))
  : list (string * pyval) :=
  match items with
  | [] => [(k, x)]
  | (k', y) :: rest =>
      if String.eqb k k' then (k, x) :: rest else (k', y) :: dict_set k x rest
  end.

(** ** Exceptions and results *)

Inductive exn : Type :=
| SystemExit (code : pyval)
| AttributeError
| KeyError (key : pyval)
| TypeError
| ValueError
| IndexError
| UnicodeDecodeError
| FileNotFoundError.

Inductive result (A : Type) : Type :=
| Ok (a : A)
| Raise (e : exn).
Arguments Ok {A} a.
Arguments Raise {A} e.

Definition rbind {A B} (r : result A) (k : A -> result B) : result B :=
  match r with
  | Ok a => k a
  | Raise e => Raise e
  end.

Notation "'let?' x ':=' c 'in' k" := (rbind c (fun x => k))
  (at level 10, x name, c at level 100, k at level 200).

(** [d.get(k)]: [None] for a missing key, [AttributeError] when [d] is
    not a dict (lists, strings, numbers and [None] have no [get]). *)
Definition dict_get (d : pyval) (k : string) : result pyval :=
  match d with
  | VDict items => Ok (default VNone (assoc k items))
  | _ => Raise AttributeError
  end.

(** [d.get(k, dflt)] *)
Definition dict_get_default (d : pyval) (k : string) (dflt : pyval) : result pyval :=
  match d with
  | VDict items => Ok (default dflt (assoc k items))
  | _ => Raise AttributeError
  end.

(** [d[k]] with a string key: [KeyError] when a dict lacks it,
    [TypeError] on every other value. *)
Definition dict_item (d : pyval) (k : string) : result pyval :=
  match d with
  | VDict items =>
      match assoc k items with
      | Some x => Ok x
      | None => Raise (KeyError (VStr k))
      end
  | _ => Raise TypeError
  end.

(** [v.lower()]: only strings have the method. *)
Definition str_lower (v : pyval) : result string :=
  match v with
  | VStr s => Ok (Py.lower s)
  | _ => Raise AttributeError
  end.

Fixpoint chars (s : string) : list pyval :=
  match s with
  | String c s' => VStr (String c "") :: chars s'
  | EmptyString => []
  end.

(** The elements [for x in v] goes through. *)
Definition py_iter (v : pyval) : result (list pyval) :=
  match v with
  | VList xs => Ok xs
  | VDict items => Ok (map (fun kv => VStr (fst kv)) items)
  | VStr s => Ok (chars s)
  | _ => Raise TypeError
  end.

(** [v[0]] *)
Definition py_first (v : pyval) : result pyval :=
  match v with
  | VList (x :: _) => Ok x
  | VList [] => Raise IndexError
  | VStr (String c _) => Ok (VStr (String c ""))
  | VStr EmptyString => Raise IndexError
  | VDict _ => Raise (KeyError (VInt 0))
  | _ => Raise TypeError
  end.

(** ** The outside world, events and computations *)

(** A call made through [requests]. *)
Record http_request : Type := {
  hmethod : string;
  url : string;
  headers : list (string * string);
  params : list (string * pyval);
  json_body : option (list (string * pyval));
  timeout : Z
}.

(** What the program reads from a [requests] response: [resp_json] is
    [response.json()], [None] when the body does not decode
    ([ValueError]). *)
Record http_response : Type := {
  ok : bool;
  status_code : Z;
  resp_text : string;
  resp_json : option pyval;
  content : string
}.

(** The world the process runs in.  [environ] is the process environment
    as [get_api_key] leaves it, that is after [load_dotenv] has merged
    the project-local file. *)
Record World : Type := {
  environ : string -> option string;
  read_text : string -> option string;
  stdin_isatty : bool;
  stdin_read : string;
  provider : http_request -> http_response
}.

Inductive event : Type :=
| Print (line : string)
| Http (r : http_request)
| WriteBytes (path : string) (data : string)
| PlayAudio (path : string)
| SendResponse (status : Z)
| SendHeader (key value : string)
| EndHeaders
| WfileWrite (data : string).

(** A computation: reads the world, performs events, ends with a value
    or an exception. *)
Definition M (A : Type) : Type := World -> list event * result A.

Definition ret {A} (a : A) : M A := fun _ => ([], Ok a).

Definition bind {A B} (c : M A) (k : A -> M B) : M B :=
  fun w =>
    match c w with
    | (tr, Ok a) => match k a w with (tr', r) => (tr ++ tr', r) end
    | (tr, Raise e) => (tr, Raise e)
    end.

Definition raise {A} (e : exn) : M A := fun _ => ([], Raise e).

Definition lift {A} (r : result A) : M A := fun _ => ([], r).

Definition emit (e : event) : M unit := fun _ => ([e], Ok tt).

Definition ask {A} (f : World -> A) : M A := fun w => ([], Ok (f w)).

(** [try: c except SystemExit as exc: h exc] *)
Definition try_except_SystemExit {A} (c : M A) (h : pyval -> M A) : M A :=
  fun w =>
    match c w with
    | (tr, Raise (SystemExit code)) => match h code w with (tr', r) => (tr ++ tr', r) end
    | other => other
    end.

Notation "'let*' x ':=' c 'in' k" := (bind c (fun x => k))
  (at level 10, x name, c at level 100, k at level 200).
Notation "c ';;' k" := (bind c (fun _ => k))
  (at level 100, k at level 200, right associativity).

(** The provider calls of a trace, in order. *)
Fixpoint provider_calls (tr : list event) : list http_request :=
  match tr with
  | Http r :: rest => r :: provider_calls rest
  | _ :: rest => provider_calls rest
  | [] => []
  end.

(** [b.decode("utf-8")] on a byte string: the text is represented by its
    UTF-8 bytes, so decoding is a validity check.  [need] continuation
    bytes are still expected, the next one within [lo..hi]. *)
Fixpoint utf8_scan (bs : list nat) (need lo hi : nat) : bool :=
  match bs with
  | [] => (need =? 0)%nat
  | b :: rest =>
      match need with
      | O =>
          if (b <? 128)%nat then utf8_scan rest 0 128 191
          else if ((194 <=? b) && (b <=? 223))%nat then utf8_scan rest 1 128 191
          else if (b =? 224)%nat then utf8_scan rest 2 160 191
          else if (b =? 237)%nat then utf8_scan rest 2 128 159
          else if ((225 <=? b) && (b <=? 239))%nat then utf8_scan rest 2 128 191
          else if (b =? 240)%nat then utf8_scan rest 3 144 191
          else if (b =? 244)%nat then utf8_scan rest 3 128 143
          else if ((241 <=? b) && (b <=? 243))%nat then utf8_scan rest 3 128 191
          else false
      | S need' => ((lo <=? b) && (b <=? hi))%nat && utf8_scan rest need' 128 191
      end
  end.

Fixpoint byte_values (s : string) : list nat :=
  match s with
  | String c s' => nat_of_ascii c :: byte_values s'
  | EmptyString => []
  end.

Definition decode_utf8 (raw : string) : result string :=
  if utf8_scan (byte_values raw) 0 128 191 then Ok raw
  else Raise UnicodeDecodeError.

(** [rfile.read(n)]: at most [n] bytes of what the client sent; a
    negative [n] reads to the end of the stream. *)
Fixpoint take_bytes (n : nat) (s : string) : string :=
  match n, s with
  | S n', String c s' => String c (take_bytes n' s')
  | _, _ => EmptyString
  end.

Definition rfile_read (n : Z) (body : string) : string :=
  if n <? 0 then body else take_bytes (Z.to_nat n) body.

(** ** The program *)

(** [argparse.Namespace] as built by [parse_args]. *)
Module Args.
Record t : Type := {
  list_voices : bool;
  serve : bool;
  host : string;
  port : Z;
  cors_origin : string;
  voice_id : option string;
  voice_name : option string;
  text : option string;
  text_file : option string;
  model_id : option string;
  output_format : option string;
  output : string;
  no_logging : bool;
  no_play : bool;
  voice_settings : option string
}.
End Args.

Module ServerConfig.
Record t : Type := {
  api_key : string;
  default_voice_id : pyval;
  voice_map : gmap string string;
  output_format : pyval;
  model_id : pyval;
  enable_logging : bool;
  cors_origin : string
}.
End ServerConfig.

(** What a handler instance holds of the request it serves: [path],
    the [Content-Length] header when there is one, and the bytes
    readable from [rfile]. *)
Module Request.
Record t : Type := {
  path : string;
  content_length : option string;
  rfile : string
}.
End Request.

(** Outcome of [json.loads]. *)
Inductive decoded : Type :=
| Decoded (v : pyval)
| JSONDecodeError (msg : string).

(** The [json] module: [json_loads] is [json.loads], [json_dumps] is
    [json.dumps] with its defaults and [json_dumps_indent2] is
    [json.dumps(..., indent=2)]. *)
Class JsonLib : Type := {
  json_loads : string -> decoded;
  json_dumps : pyval -> string;
  json_dumps_indent2 : pyval -> string;
  (** the one fact about decoding the program relies on: the text [{}]
      is the empty object *)
  json_loads_empty_object : json_loads "{}" = Decoded (VDict [])
}.

Definition BASE_URL : string := "https://api.elevenlabs.io/v1".

(** [os.getenv(k)] *)
Definition getenv (k : string) : M pyval := ask (fun w => of_opt (environ w k)).

(** [requests.get] and [requests.post]: the call is recorded and the
    provider's answer returned.  The [requests] package is taken to be
    installed, so [get_requests] always succeeds. *)
Definition requests_call (r : http_request) : M http_response :=
  emit (Http r) ;; ask (fun w => provider w r).

Definition is_dict (v : pyval) : bool :=
  match v with VDict _ => true | _ => false end.

Definition is_none (v : pyval) : bool :=
  match v with VNone => true | _ => false end.

(** The loop of [load_voice_map] over [payload.items()]. *)
Fixpoint voice_map_items (items : list (string * pyval)) (voice_map : gmap string string)
  : gmap string string :=
  match items with
  | [] => voice_map
  | (key, value) :: rest =>
      if is_none value then voice_map_items rest voice_map
      else voice_map_items rest
             (<[Py.lower (Py.strip key) := Py.strip (py_str value)]> voice_map)
  end.

(** The comprehension of [pick_voice_by_name]: the voices whose
    lower-cased name contains [query], in catalog order. *)
Fixpoint name_matches (query : string) (voices : list pyval) : result (list pyval) :=
  match voices with
  | [] => Ok []
  | voice :: rest =>
      let? n := dict_get voice "name" in
      let? lowered := str_lower (py_or n (VStr "")) in
      let? more := name_matches query rest in
      Ok (if Py.contains query lowered then voice :: more else more)
  end.

Section Program.
Context `{JsonLib}.

Definition get_api_key : M string :=
  let* api_key := getenv "ELEVENLABS_API_KEY" in
  if negb (truthy api_key)
  then raise (SystemExit (VStr "Set ELEVENLABS_API_KEY in .env (project-local)"))
  else ret (py_str api_key).

Definition request_json_or_text (response : http_response) : string :=
  match resp_json response with
  | Some v => json_dumps_indent2 v
  | None => resp_text response
  end.

Definition list_voices (api_key : string) : M pyval :=
  let* response :=
    requests_call {| hmethod := "GET";
                     url := BASE_URL +:+ "/voices";
                     headers := [("xi-api-key", api_key); ("Accept", "application/json")];
                     params := [];
                     json_body := None;
                     timeout := 30 |} in
  if negb (ok response)
  then raise (SystemExit (VStr ("List voices failed (" +:+ pretty (status_code response)
                                +:+ "): " +:+ request_json_or_text response)))
  else
    let* payload := lift (match resp_json response with
                          | Some v => Ok v
                          | None => Raise ValueError
                          end) in
    lift (dict_get_default payload "voices" (VList [])).

Fixpoint print_voices (voices : list pyval) : M unit :=
  match voices with
  | [] => ret tt
  | voice :: rest =>
      let* n := lift (dict_get voice "name") in
      let name := py_or n (VStr "") in
      let* i := lift (dict_get voice "voice_id") in
      let voice_id := py_or i (VStr "") in
      let* c := lift (dict_get voice "category") in
      let category := py_or c (VStr "") in
      let label :=
        if truthy category
        then py_str name +:+ " [" +:+ py_str category +:+ "]"
        else py_str name in
      emit (Print (label +:+ " - " +:+ py_str voice_id)) ;;
      print_voices rest
  end.

Definition pick_voice_by_name (voices : pyval) (name_query : string) : M pyval :=
  let query := Py.lower (Py.strip name_query) in
  let* vs := lift (py_iter voices) in
  let* matches := lift (name_matches query vs) in
  if negb (truthy (VList matches))
  then raise (SystemExit (VStr ("No voice matched name query: " +:+ Py.repr_str name_query)))
  else if (1 <? length matches)%nat
  then
    emit (Print "Multiple voices matched. Be more specific or use --voice-id.") ;;
    print_voices matches ;;
    raise (SystemExit (VInt 1))
  else lift (py_first (VList matches)).

Definition resolve_voice_id (api_key : string) (args : Args.t) : M pyval :=
  if truthy (of_opt (Args.voice_id args)) then ret (of_opt (Args.voice_id args))
  else
    let* env_voice_id := getenv "ELEVENLABS_VOICE_ID" in
    if truthy env_voice_id then ret env_voice_id
    else
      let* voices := list_voices api_key in
      if truthy (of_opt (Args.voice_name args))
      then
        let* voice := pick_voice_by_name voices (py_str (of_opt (Args.voice_name args))) in
        lift (dict_item voice "voice_id")
      else if negb (truthy voices)
      then raise (SystemExit (VStr "No voices returned. Check your ElevenLabs account."))
      else
        let* first := lift (py_first voices) in
        let* voice_id := lift (dict_get first "voice_id") in
        let* n := lift (dict_get first "name") in
        let name := py_or n (VStr "unknown") in
        if negb (truthy voice_id)
        then raise (SystemExit (VStr "First voice is missing a voice_id."))
        else
          emit (Print ("Using first available voice: " +:+ py_str name
                       +:+ " (" +:+ py_str voice_id +:+ ")")) ;;
          ret voice_id.

Definition resolve_text (args : Args.t) : M string :=
  if truthy (of_opt (Args.text args)) then ret (py_str (of_opt (Args.text args)))
  else if truthy (of_opt (Args.text_file args))
  then
    let* file := ask (fun w => read_text w (py_str (of_opt (Args.text_file args)))) in
    match file with
    | Some data => ret (Py.strip data)
    | None => raise FileNotFoundError
    end
  else
    let* tty := ask stdin_isatty in
    if negb tty
    then let* data := ask stdin_read in ret (Py.strip data)
    else raise (SystemExit (VStr "Provide --text, --text-file, or pipe text via stdin.")).

Definition synthesize_bytes (api_key : string) (voice_id : pyval) (text : string)
    (model_id output_format : pyval) (enable_logging : bool) (voice_settings : pyval)
  : M string :=
  let params : list (string * pyval) := [] in
  let params :=
    if truthy output_format then dict_set "output_format" output_format params
    else params in
  let params :=
    if negb enable_logging then dict_set "enable_logging" (VStr "false") params
    else params in
  let payload : list (string * pyval) := [("text", VStr text)] in
  let payload :=
    if truthy model_id then dict_set "model_id" model_id payload else payload in
  let payload :=
    if truthy voice_settings then dict_set "voice_settings" voice_settings payload
    else payload in
  let* response :=
    requests_call {| hmethod := "POST";
                     url := BASE_URL +:+ "/text-to-speech/" +:+ py_str voice_id;
                     headers := [("xi-api-key", api_key);
                                 ("Content-Type", "application/json");
                                 ("Accept", "*/*")];
                     params := params;
                     json_body := Some payload;
                     timeout := 120 |} in
  if negb (ok response)
  then raise (SystemExit (VStr ("TTS request failed (" +:+ pretty (status_code response)
                                +:+ "): " +:+ request_json_or_text response)))
  else ret (content response).

Definition synthesize (api_key : string) (voice_id : pyval) (text output_path : string)
    (model_id output_format : pyval) (enable_logging : bool) (voice_settings : pyval)
  : M unit :=
  let* audio :=
    synthesize_bytes api_key voice_id text model_id output_format enable_logging
      voice_settings in
  emit (WriteBytes output_path audio) ;;
  emit (Print ("Saved audio to " +:+ output_path)).

(** Playback is delegated to a platform player. *)
Definition play_audio (path : string) : M unit := emit (PlayAudio path).

Definition load_voice_map : M (gmap string string) :=
  let* raw := getenv "ELEVENLABS_VOICE_MAP" in
  if negb (truthy raw) then ret ∅
  else
    match json_loads (py_str raw) with
    | JSONDecodeError exc =>
        raise (SystemExit (VStr ("Invalid ELEVENLABS_VOICE_MAP JSON: " +:+ exc)))
    | Decoded payload =>
        match payload with
        | VDict items => ret (voice_map_items items ∅)
        | _ => raise (SystemExit (VStr "ELEVENLABS_VOICE_MAP must be a JSON object"))
        end
    end.

(** *** The request handler, [TTSRequestHandler] *)

Definition _send_json (config : ServerConfig.t) (status : Z) (payload : pyval) : M unit :=
  let body := json_dumps payload in
  emit (SendResponse status) ;;
  emit (SendHeader "Content-Type" "application/json") ;;
  emit (SendHeader "Content-Length" (pretty (String.length body))) ;;
  emit (SendHeader "Access-Control-Allow-Origin" (ServerConfig.cors_origin config)) ;;
  emit EndHeaders ;;
  emit (WfileWrite body).

Definition _send_audio (config : ServerConfig.t) (audio : string) : M unit :=
  emit (SendResponse 200) ;;
  emit (SendHeader "Content-Type" "audio/mpeg") ;;
  emit (SendHeader "Content-Length" (pretty (String.length audio))) ;;
  emit (SendHeader "Access-Control-Allow-Origin" (ServerConfig.cors_origin config)) ;;
  emit EndHeaders ;;
  emit (WfileWrite audio).

Definition do_OPTIONS (config : ServerConfig.t) (request : Request.t) : M unit :=
  emit (SendResponse 204) ;;
  emit (SendHeader "Access-Control-Allow-Origin" (ServerConfig.cors_origin config)) ;;
  emit (SendHeader "Access-Control-Allow-Methods" "POST, OPTIONS") ;;
  emit (SendHeader "Access-Control-Allow-Headers" "Content-Type") ;;
  emit EndHeaders.

(** The first statements of [do_POST] after the path check: read
    [Content-Length] bytes, decode them and hand the text, or [{}] when
    there is none, to [json.loads]. *)
Definition read_payload (request : Request.t) : result decoded :=
  let? length :=
    match Py.int (default "0" (Request.content_length request)) with
    | Some n => Ok n
    | None => Raise ValueError
    end in
  let raw := if Z.eqb length 0 then "" else rfile_read length (Request.rfile request) in
  let? text := decode_utf8 raw in
  Ok (json_loads (py_str (py_or (VStr text) (VStr "{}")))).

Definition do_POST (config : ServerConfig.t) (request : Request.t) : M unit :=
  if negb (String.eqb (Request.path request) "/tts")
  then _send_json config 404 (VDict [("error", VStr "Not found")])
  else
    let* loaded := lift (read_payload request) in
    match loaded with
    | JSONDecodeError _ => _send_json config 400 (VDict [("error", VStr "Invalid JSON")])
    | Decoded payload =>
        let* t := lift (dict_get payload "text") in
        let text := Py.strip (py_str (py_or t (VStr ""))) in
        if negb (truthy (VStr text))
        then _send_json config 400 (VDict [("error", VStr "Missing text")])
        else
          let* n := lift (dict_get payload "name") in
          let* s := lift (dict_get payload "speaker") in
          let name := Py.strip (py_str (py_or (py_or n s) (VStr ""))) in
          let* v := lift (dict_get payload "voice_id") in
          let voice_id := VStr (Py.strip (py_str (py_or v (VStr "")))) in
          let voice_id :=
            if negb (truthy voice_id)
            then
              let key := Py.lower name in
              VStr (default "" (ServerConfig.voice_map config !! key))
            else voice_id in
          let voice_id :=
            if negb (truthy voice_id)
            then py_or (ServerConfig.default_voice_id config) (VStr "")
            else voice_id in
          if negb (truthy voice_id)
          then
            _send_json config 400
              (VDict [("error",
                       VStr ("No voice_id resolved. Provide voice_id, "
                             +:+ "set ELEVENLABS_VOICE_ID, or map name via ELEVENLABS_VOICE_MAP."))])
          else
            let* m := lift (dict_get payload "model_id") in
            let model_id := py_or m (ServerConfig.model_id config) in
            let* o := lift (dict_get payload "output_format") in
            let output_format := py_or o (ServerConfig.output_format config) in
            let* voice_settings := lift (dict_get payload "voice_settings") in
            if negb (is_none voice_settings) && negb (is_dict voice_settings)
            then _send_json config 400 (VDict [("error", VStr "voice_settings must be an object")])
            else
              let* outcome :=
                try_except_SystemExit
                  (let* audio :=
                     synthesize_bytes (ServerConfig.api_key config) voice_id text model_id
                       output_format (ServerConfig.enable_logging config) voice_settings in
                   ret (Some audio))
                  (fun exc =>
                     _send_json config 502 (VDict [("error", VStr (py_str exc))]) ;;
                     ret None) in
              match outcome with
              | Some audio => _send_audio config audio
              | None => ret tt
              end
    end.

(** [serve] up to the point where the server starts accepting
    connections: the configuration every request is then handled with. *)
Definition serve (api_key : string) (args : Args.t) : M ServerConfig.t :=
  let* voice_map := load_voice_map in
  let* env_voice_id := getenv "ELEVENLABS_VOICE_ID" in
  let* default_voice_id :=
    if truthy (of_opt (Args.voice_id args)) || truthy (of_opt (Args.voice_name args))
       || truthy env_voice_id
    then resolve_voice_id api_key args
    else ret VNone in
  let config :=
    {| ServerConfig.api_key := api_key;
       ServerConfig.default_voice_id := default_voice_id;
       ServerConfig.voice_map := voice_map;
       ServerConfig.output_format := of_opt (Args.output_format args);
       ServerConfig.model_id := of_opt (Args.model_id args);
       ServerConfig.enable_logging := negb (Args.no_logging args);
       ServerConfig.cors_origin := Args.cors_origin args |} in
  emit (Print ("TTS server listening on http://" +:+ Args.host args +:+ ":"
               +:+ pretty (Args.port args) +:+ "/tts")) ;;
  ret config.

(** [main], [args] being what [parse_args] returned. *)
Definition main (args : Args.t) : M unit :=
  let* api_key := get_api_key in
  if Args.list_voices args
  then
    let* voices := list_voices api_key in
    let* vs := lift (py_iter voices) in
    print_voices vs
  else if Args.serve args
  then serve api_key args ;; ret tt
  else
    let* voice_id := resolve_voice_id api_key args in
    let* text := resolve_text args in
    let* voice_settings :=
      if truthy (of_opt (Args.voice_settings args))
      then
        match json_loads (py_str (of_opt (Args.voice_settings args))) with
        | Decoded v => ret v
        | JSONDecodeError exc =>
            raise (SystemExit (VStr ("Invalid --voice-settings JSON: " +:+ exc)))
        end
      else ret VNone in
    synthesize api_key voice_id text (Args.output args) (of_opt (Args.model_id args))
      (of_opt (Args.output_format args)) (negb (Args.no_logging args)) voice_settings ;;
    if negb (Args.no_play args) then play_audio (Args.output args) else ret tt.

End Program.

(** ** A reference JSON codec

    A decoder and an encoder for the part of JSON the model represents
    (no fractions or exponents, no [\u] escapes), used to run the program
    on concrete request bodies.  The properties below are proved for
    every [JsonLib], not for this one only. *)

Module RefJson.

Definition is_ws (c : ascii) : bool :=
  let n := nat_of_ascii c in
  (n =? 32)%nat || (n =? 9)%nat || (n =? 10)%nat || (n =? 13)%nat.

Fixpoint skip_ws (s : string) : string :=
  match s with
  | String c s' => if is_ws c then skip_ws s' else s
  | EmptyString => EmptyString
  end.

(** The characters of a string literal after its opening quote. *)
Fixpoint string_body (s : string) : option (string * string) :=
  match s with
  | EmptyString => None
  | String c s' =>
      if Ascii.eqb c Py.dquote then Some ("", s')
      else if Ascii.eqb c Py.backslash then
        match s' with
        | String e s'' =>
            let unescaped :=
              if Ascii.eqb e Py.dquote then Some Py.dquote
              else if Ascii.eqb e Py.backslash then Some Py.backslash
              else if Ascii.eqb e "/" then Some "/"%char
              else if Ascii.eqb e "b" then Some "008"%char
              else if Ascii.eqb e "f" then Some "012"%char
              else if Ascii.eqb e "n" then Some "010"%char
              else if Ascii.eqb e "r" then Some "013"%char
              else if Ascii.eqb e "t" then Some "009"%char
              else None in
            match unescaped, string_body s'' with
            | Some u, Some (body, rest) => Some (String u body, rest)
            | _, _ => None
            end
        | EmptyString => None
        end
      else if (nat_of_ascii c <? 32)%nat then None
      else
        match string_body s' with
        | Some (body, rest) => Some (String c body, rest)
        | None => None
        end
  end.

Fixpoint digits (s : string) (acc : Z) : Z * string :=
  match s with
  | String c s' =>
      match Py.digit_val c with
      | Some d => digits s' (10 * acc + d)
      | None => (acc, s)
      end
  | EmptyString => (acc, s)
  end.

(** An integer literal; a fraction or an exponent is refused. *)
Definition number (s : string) : option (Z * string) :=
  let '(negative, s1) :=
    match s with
    | String "-" r => (true, r)
    | _ => (false, s)
    end in
  match s1 with
  | String c r =>
      match Py.digit_val c with
      | None => None
      | Some d =>
          let '(n, rest) := if Z.eqb d 0 then (0, r) else digits r d in
          match rest with
          | String "." _ | String "e" _ | String "E" _ => None
          | _ => Some (if negative then - n else n, rest)
          end
      end
  | EmptyString => None
  end.

Fixpoint after_word (word s : string) : option string :=
  match word, s with
  | EmptyString, _ => Some s
  | String a word', String b s' => if Ascii.eqb a b then after_word word' s' else None
  | String _ _, EmptyString => None
  end.

Definition literal (word : string) (v : pyval) (s : string) : option (pyval * string) :=
  match after_word word s with
  | Some rest => Some (v, rest)
  | None => None
  end.

Fixpoint value (fuel : nat) (s : string) : option (pyval * string) :=
  match fuel with
  | O => None
  | S fuel' =>
      match skip_ws s with
      | String "n" _ => literal "null" VNone (skip_ws s)
      | String "t" _ => literal "true" (VBool true) (skip_ws s)
      | String "f" _ => literal "false" (VBool false) (skip_ws s)
      | String "[" r =>
          match skip_ws r with
          | String "]" r' => Some (VList [], r')
          | _ => elements fuel' r []
          end
      | String "{" r =>
          match skip_ws r with
          | String "}" r' => Some (VDict [], r')
          | _ => members fuel' r []
          end
      | String c r =>
          if Ascii.eqb c Py.dquote
          then match string_body r with
               | Some (body, rest) => Some (VStr body, rest)
               | None => None
               end
          else match number (String c r) with
               | Some (n, rest) => Some (VInt n, rest)
               | None => None
               end
      | EmptyString => None
      end
  end
with elements (fuel : nat) (s : string) (acc : list pyval) : option (pyval * string) :=
  match fuel with
  | O => None
  | S fuel' =>
      match value fuel' s with
      | Some (v, rest) =>
          match skip_ws rest with
          | String "," rest' => elements fuel' rest' (acc ++ [v])
          | String "]" rest' => Some (VList (acc ++ [v]), rest')
          | _ => None
          end
      | None => None
      end
  end
with members (fuel : nat) (s : string) (acc : list (string * pyval))
  : option (pyval * string) :=
  match fuel with
  | O => None
  | S fuel' =>
      match skip_ws s with
      | String c r =>
          if Ascii.eqb c Py.dquote
          then
            match string_body r with
            | Some (key, rest) =>
                match skip_ws rest with
                | String ":" rest' =>
                    match value fuel' rest' with
                    | Some (v, rest'') =>
                        match skip_ws rest'' with
                        | String "," more => members fuel' more (dict_set key v acc)
                        | String "}" more => Some (VDict (dict_set key v acc), more)
                        | _ => None
                        end
                    | None => None
                    end
                | _ => None
                end
            | None => None
            end
          else None
      | EmptyString => None
      end
  end.

Definition loads (s : string) : decoded :=
  match value (S (String.length s)) s with
  | Some (v, rest) =>
      match skip_ws rest with
      | EmptyString => Decoded v
      | _ => JSONDecodeError "Extra data"
      end
  | None => JSONDecodeError "Expecting value"
  end.

Definition hex4 (n : nat) : string :=
  String "0" (String "0" (String (Py.hex_digit (n / 16)) (String (Py.hex_digit (n mod 16)) ""))).

Definition escape_char (c : ascii) : string :=
  let n := nat_of_ascii c in
  if Ascii.eqb c Py.dquote || Ascii.eqb c Py.backslash then String Py.backslash (String c "")
  else if (n =? 10)%nat then String Py.backslash "n"
  else if (n =? 13)%nat then String Py.backslash "r"
  else if (n =? 9)%nat then String Py.backslash "t"
  else if (n =? 8)%nat then String Py.backslash "b"
  else if (n =? 12)%nat then String Py.backslash "f"
  else if (n <? 32)%nat then String Py.backslash (String "u" (hex4 n))
  else String c "".

Fixpoint escape (s : string) : string :=
  match s with
  | String c s' => escape_char c +:+ escape s'
  | EmptyString => EmptyString
  end.

Definition quoted (s : string) : string :=
  String Py.dquote (escape s +:+ String Py.dquote "").

Fixpoint dumps (v : pyval) : string :=
  match v with
  | VNone => "null"
  | VBool true => "true"
  | VBool false => "false"
  | VInt n => pretty n
  | VStr s => quoted s
  | VList xs => "[" +:+ Py.join ", " (map dumps xs) +:+ "]"
  | VDict items =>
      "{" +:+ Py.join ", "
                (map (fun kv => match kv with
                                | (k, x) => quoted k +:+ ": " +:+ dumps x
                                end) items) +:+ "}"
  end.

Fixpoint spaces (n : nat) : string :=
  match n with
  | O => ""
  | S n' => String " " (spaces n')
  end.

Definition newline : string := String "010" "".

Fixpoint dumps_indent2 (level : nat) (v : pyval) : string :=
  let inner := newline +:+ spaces (2 * S level) in
  let close := newline +:+ spaces (2 * level) in
  match v with
  | VList [] => "[]"
  | VDict [] => "{}"
  | VList xs =>
      "[" +:+ inner +:+ Py.join ("," +:+ inner) (map (dumps_indent2 (S level)) xs)
      +:+ close +:+ "]"
  | VDict items =>
      "{" +:+ inner
      +:+ Py.join ("," +:+ inner)
            (map (fun kv => match kv with
                            | (k, x) => quoted k +:+ ": " +:+ dumps_indent2 (S level) x
                            end) items)
      +:+ close +:+ "}"
  | _ => dumps v
  end.

#[export] Instance lib : JsonLib := {|
  json_loads := loads;
  json_dumps := dumps;
  json_dumps_indent2 := dumps_indent2 0;
  json_loads_empty_object := eq_refl
|}.

End RefJson.

(** ** Vocabulary of the statements *)

(** What [_send_json] puts on the wire. *)
Definition json_response `{JsonLib} (config : ServerConfig.t) (status : Z) (payload : pyval)
  : list event :=
  [ SendResponse status;
    SendHeader "Content-Type" "application/json";
    SendHeader "Content-Length" (pretty (String.length (json_dumps payload)));
    SendHeader "Access-Control-Allow-Origin" (ServerConfig.cors_origin config);
    EndHeaders;
    WfileWrite (json_dumps payload) ].

(** The error envelope: the object with the single member [error]. *)
Definition error_envelope (message : string) : pyval := VDict [("error", VStr message)].

(** What [_send_audio] puts on the wire. *)
Definition audio_response (config : ServerConfig.t) (audio : string) : list event :=
  [ SendResponse 200;
    SendHeader "Content-Type" "audio/mpeg";
    SendHeader "Content-Length" (pretty (String.length audio));
    SendHeader "Access-Control-Allow-Origin" (ServerConfig.cors_origin config);
    EndHeaders;
    WfileWrite audio ].

(** The member [k] of a decoded object, [None] when it is missing. *)
Definition field (items : list (string * pyval)) (k : string) : pyval :=
  default VNone (assoc k items).

(** A string made of blanks only (the empty string included). *)
Fixpoint blank (s : string) : bool :=
  match s with
  | String c s' => Py.is_space c && blank s'
  | EmptyString => true
  end.

(** [q] occurs in [s]: [s] is some text, then [q], then some text. *)
Definition occurs_in (q s : string) : Prop :=
  exists before after : string, s = before +:+ q +:+ after.

(** The text of a request, as the gateway reads it. *)
Definition body_text (items : list (string * pyval)) : string :=
  Py.strip (py_str (py_or (field items "text") (VStr ""))).

(** The voice id a request body states, trimmed. *)
Definition body_voice_id (items : list (string * pyval)) : string :=
  Py.strip (py_str (py_or (field items "voice_id") (VStr ""))).

(** The speaker of a request: its [name], else its [speaker]. *)
Definition speaker_name (items : list (string * pyval)) : string :=
  py_str (py_or (py_or (field items "name") (field items "speaker")) (VStr "")).

(** The voice-map key of a speaker name: trimmed and lower-cased. *)
Definition normalized (name : string) : string := Py.lower (Py.strip name).

(** First match wins: the first candidate that is not empty, the empty
    string when there is none. *)
Fixpoint first_match (candidates : list pyval) : pyval :=
  match candidates with
  | [] => VStr ""
  | c :: rest => if truthy c then c else first_match rest
  end.

(** The gateway chain: (a) the voice id of the body, (b) the voice map at
    the normalized speaker name, (c) the configured default. *)
Definition gateway_chain (config : ServerConfig.t) (items : list (string * pyval)) : pyval :=
  first_match
    [ VStr (body_voice_id items);
      VStr (default "" (ServerConfig.voice_map config !! normalized (speaker_name items)));
      ServerConfig.default_voice_id config ].

Definition no_voice_message : string :=
  "No voice_id resolved. Provide voice_id, set ELEVENLABS_VOICE_ID, or map name via ELEVENLABS_VOICE_MAP.".

(** The address [synthesize_bytes] posts to for a voice id. *)
Definition synthesis_url (voice_id : string) : string :=
  BASE_URL +:+ "/text-to-speech/" +:+ voice_id.

(** The text of the JSON body of a provider call. *)
Definition call_text (r : http_request) : option pyval :=
  match json_body r with
  | Some payload => assoc "text" payload
  | None => None
  end.

(** A POST to [/tts] carrying [payload], encoded by the reference codec. *)
Definition post_tts (payload : pyval) : Request.t :=
  {| Request.path := "/tts";
     Request.content_length := Some (pretty (String.length (RefJson.dumps payload)));
     Request.rfile := RefJson.dumps payload |}.

(** A provider that accepts every call and answers with three bytes. *)
Definition accepting (r : http_request) : http_response :=
  {| ok := true; status_code := 200; resp_text := ""; resp_json := None; content := "mp3" |}.

(** A world with nothing in its environment and no files. *)
Definition bare_world : World :=
  {| environ := fun _ => None;
     read_text := fun _ => None;
     stdin_isatty := true;
     stdin_read := "";
     provider := accepting |}.

(** A gateway configuration with no default voice and no voice map. *)
Definition bare_config : ServerConfig.t :=
  {| ServerConfig.api_key := "key";
     ServerConfig.default_voice_id := VNone;
     ServerConfig.voice_map := ∅;
     ServerConfig.output_format := VStr "mp3_44100_128";
     ServerConfig.model_id := VNone;
     ServerConfig.enable_logging := true;
     ServerConfig.cors_origin := "*" |}.

(** The provider call [synthesize_bytes] makes: the query carries
    [output_format] when there is one and [enable_logging=false] when
    logging is off; the body carries the text, then the model and the
    voice settings when there are any. *)
Definition synthesis_call (api_key : string) (voice_id : pyval) (text : string)
    (model_id output_format : pyval) (enable_logging : bool) (voice_settings : pyval)
  : http_request :=
  {| hmethod := "POST";
     url := synthesis_url (py_str voice_id);
     headers := [("xi-api-key", api_key); ("Content-Type", "application/json");
                 ("Accept", "*/*")];
     params := (if truthy output_format then [("output_format", output_format)] else [])
               ++ (if enable_logging then [] else [("enable_logging", VStr "false")]);
     json_body := Some ([("text", VStr text)]
                        ++ (if truthy model_id then [("model_id", model_id)] else [])
                        ++ (if truthy voice_settings
                            then [("voice_settings", voice_settings)] else []));
     timeout := 120 |}.

(** The message of a failed synthesis. *)
Definition synthesis_failure `{JsonLib} (response : http_response) : string :=
  "TTS request failed (" +:+ pretty (status_code response) +:+ "): "
  +:+ request_json_or_text response.

(** The last stage of the gateway: the call is made, and the audio or a
    502 envelope is sent back. *)
Definition forwarded `{JsonLib} (config : ServerConfig.t) (r : http_request) (w : World)
  : list event * result unit :=
  let response := provider w r in
  if ok response
  then (Http r :: audio_response config (content response), Ok tt)
  else (Http r :: json_response config 502 (error_envelope (synthesis_failure response)),
        Ok tt).

(** A [voice_settings] member the gateway refuses: present and not an
    object. *)
Definition refused_settings (v : pyval) : bool := negb (is_none v) && negb (is_dict v).

(** Two decoded objects with the same members, the keys [ks] aside. *)
Definition agree_except (ks : list string) (items1 items2 : list (string * pyval)) : Prop :=
  forall k, ~ In k ks -> assoc k items1 = assoc k items2.

(** The gateway of [bare_config] with the voice map [{"bob": "v1"}]. *)
Definition mapped_config : ServerConfig.t :=
  {| ServerConfig.api_key := "key";
     ServerConfig.default_voice_id := VNone;
     ServerConfig.voice_map := <["bob" := "v1"]> ∅;
     ServerConfig.output_format := VStr "mp3_44100_128";
     ServerConfig.model_id := VNone;
     ServerConfig.enable_logging := true;
     ServerConfig.cors_origin := "*" |}.

(** The gateway of [bare_config] with the default voice [dflt]. *)
Definition default_config : ServerConfig.t :=
  {| ServerConfig.api_key := "key";
     ServerConfig.default_voice_id := VStr "dflt";
     ServerConfig.voice_map := ∅;
     ServerConfig.output_format := VStr "mp3_44100_128";
     ServerConfig.model_id := VNone;
     ServerConfig.enable_logging := true;
     ServerConfig.cors_origin := "*" |}.

(** The body [{"text": "hi", "voice_id": " ", "name": "Bob"}]. *)
Definition blank_voice_items : list (string * pyval) :=
  [("text", VStr "hi"); ("voice_id", VStr " "); ("name", VStr "Bob")].

(** The body [{"text": "hi", "voice_settings": "bad"}]. *)
Definition bad_settings_items : list (string * pyval) :=
  [("text", VStr "hi"); ("voice_settings", VStr "bad")].

(** The name of a catalog voice as [pick_voice_by_name] reads it: the
    [name] member, the empty text when it is missing or empty; [None]
    when the voice is not an object or its name is not text. *)
Definition voice_name_text (voice : pyval) : option string :=
  match voice with
  | VDict items =>
      match py_or (field items "name") (VStr "") with
      | VStr s => Some s
      | _ => None
      end
  | _ => None
  end.

(** The voices of a catalog whose name contains [query], the case of
    the name being ignored; [query] is lower-cased already. *)
Definition matches_of (query : string) (voices : list pyval) : list pyval :=
  List.filter
    (fun voice =>
       match voice_name_text voice with
       | Some n => Py.contains query (Py.lower n)
       | None => false
       end) voices.

(** The line [print_voices] prints for a voice. *)
Definition voice_line (voice : pyval) : string :=
  match voice with
  | VDict items =>
      let name := py_or (field items "name") (VStr "") in
      let voice_id := py_or (field items "voice_id") (VStr "") in
      let category := py_or (field items "category") (VStr "") in
      (if truthy category
       then py_str name +:+ " [" +:+ py_str category +:+ "]"
       else py_str name) +:+ " - " +:+ py_str voice_id
  | _ => ""
  end.

(** The note of an automatic selection. *)
Definition auto_selected_note (first : list (string * pyval)) : string :=
  "Using first available voice: " +:+ py_str (py_or (field first "name") (VStr "unknown"))
  +:+ " (" +:+ py_str (field first "voice_id") +:+ ")".

(** A provider whose catalog is [voices] and which accepts every
    synthesis. *)
Definition catalog_provider (voices : list pyval) (r : http_request) : http_response :=
  if String.eqb (hmethod r) "GET"
  then {| ok := true; status_code := 200; resp_text := "";
          resp_json := Some (VDict [("voices", VList voices)]); content := "" |}
  else accepting r.

(** A world for the command line: the API key is set, the default voice
    is [env_voice] when given, the file [empty.txt] exists and is empty,
    and the provider's catalog is [voices]. *)
Definition cli_world (env_voice : option string) (voices : list pyval) : World :=
  {| environ := fun k =>
       if String.eqb k "ELEVENLABS_API_KEY" then Some "key"
       else if String.eqb k "ELEVENLABS_VOICE_ID" then env_voice
       else None;
     read_text := fun path => if String.eqb path "empty.txt" then Some "" else None;
     stdin_isatty := true;
     stdin_read := "";
     provider := catalog_provider voices |}.

(** A command line with none of the options given. *)
Definition no_args : Args.t :=
  {| Args.list_voices := false; Args.serve := false; Args.host := "127.0.0.1";
     Args.port := 8000; Args.cors_origin := "*"; Args.voice_id := None;
     Args.voice_name := None; Args.text := None; Args.text_file := None;
     Args.model_id := None; Args.output_format := Some "mp3_44100_128";
     Args.output := "out.mp3"; Args.no_logging := false; Args.no_play := false;
     Args.voice_settings := None |}.

(** [--voice-id ID] *)
Definition with_voice_id (voice_id : string) (args : Args.t) : Args.t :=
  {| Args.list_voices := Args.list_voices args; Args.serve := Args.serve args;
     Args.host := Args.host args; Args.port := Args.port args;
     Args.cors_origin := Args.cors_origin args; Args.voice_id := Some voice_id;
     Args.voice_name := Args.voice_name args; Args.text := Args.text args;
     Args.text_file := Args.text_file args; Args.model_id := Args.model_id args;
     Args.output_format := Args.output_format args; Args.output := Args.output args;
     Args.no_logging := Args.no_logging args; Args.no_play := Args.no_play args;
     Args.voice_settings := Args.voice_settings args |}.

(** [--voice-name NAME] *)
Definition with_voice_name (voice_name : string) (args : Args.t) : Args.t :=
  {| Args.list_voices := Args.list_voices args; Args.serve := Args.serve args;
     Args.host := Args.host args; Args.port := Args.port args;
     Args.cors_origin := Args.cors_origin args; Args.voice_id := Args.voice_id args;
     Args.voice_name := Some voice_name; Args.text := Args.text args;
     Args.text_file := Args.text_file args; Args.model_id := Args.model_id args;
     Args.output_format := Args.output_format args; Args.output := Args.output args;
     Args.no_logging := Args.no_logging args; Args.no_play := Args.no_play args;
     Args.voice_settings := Args.voice_settings args |}.

(** [--text TEXT] *)
Definition with_text (text : string) (args : Args.t) : Args.t :=
  {| Args.list_voices := Args.list_voices args; Args.serve := Args.serve args;
     Args.host := Args.host args; Args.port := Args.port args;
     Args.cors_origin := Args.cors_origin args; Args.voice_id := Args.voice_id args;
     Args.voice_name := Args.voice_name args; Args.text := Some text;
     Args.text_file := Args.text_file args; Args.model_id := Args.model_id args;
     Args.output_format := Args.output_format args; Args.output := Args.output args;
     Args.no_logging := Args.no_logging args; Args.no_play := Args.no_play args;
     Args.voice_settings := Args.voice_settings args |}.

(** [--text-file PATH] *)
Definition with_text_file (path : string) (args : Args.t) : Args.t :=
  {| Args.list_voices := Args.list_voices args; Args.serve := Args.serve args;
     Args.host := Args.host args; Args.port := Args.port args;
     Args.cors_origin := Args.cors_origin args; Args.voice_id := Args.voice_id args;
     Args.voice_name := Args.voice_name args; Args.text := Args.text args;
     Args.text_file := Some path; Args.model_id := Args.model_id args;
     Args.output_format := Args.output_format args; Args.output := Args.output args;
     Args.no_logging := Args.no_logging args; Args.no_play := Args.no_play args;
     Args.voice_settings := Args.voice_settings args |}.

(** Two catalog voices. *)
Definition adam : pyval :=
  VDict [("voice_id", VStr "id-adam"); ("name", VStr "Adam"); ("category", VStr "premade")].

Definition nadia : pyval :=
  VDict [("voice_id", VStr "id-nadia"); ("name", VStr "Nadia")].

(** A catalog voice whose id is empty. *)
Definition voice_without_id : pyval :=
  VDict [("voice_id", VStr ""); ("name", VStr "Ada")].

(** ** The rest of the program: [load_dotenv] and playback *)

(** [load_dotenv], on the environment as a finite map.  The process
    environment is the POSIX one: [os.environ] refuses an empty name, a
    name with [=] and a name or a value with a NUL byte ([ValueError]). *)
Module Dotenv.

(** The ASCII line boundaries of [str.splitlines]: LF, VT, FF, CR, FS,
    GS and RS. *)
Definition is_linebreak (c : ascii) : bool :=
  let n := nat_of_ascii c in
  ((10 <=? n) && (n <=? 13))%nat || ((28 <=? n) && (n <=? 30))%nat.

(** [s.splitlines()], [line] being what has been read of the current
    line.  CR LF is one boundary; a final boundary opens no line. *)
Fixpoint splitlines_from (line s : string) : list string :=
  match s with
  | EmptyString =>
      match line with
      | EmptyString => []
      | _ => [line]
      end
  | String c s' =>
      if is_linebreak c
      then
        line ::
          (if (nat_of_ascii c =? 13)%nat
           then
             match s' with
             | String d s'' =>
                 if (nat_of_ascii d =? 10)%nat
                 then splitlines_from "" s''
                 else splitlines_from "" s'
             | EmptyString => splitlines_from "" s'
             end
           else splitlines_from "" s')
      else splitlines_from (line +:+ String c "") s'
  end.

Definition splitlines (s : string) : list string := splitlines_from "" s.

(** [key, value = line.split("=", 1)] on a line that has an [=]: the text
    before the first [=] and the text after it. *)
Fixpoint split_eq (s : string) : string * string :=
  match s with
  | EmptyString => ("", "")
  | String c s' =>
      if Ascii.eqb c "="
      then ("", s')
      else let '(key, value) := split_eq s' in (String c key, value)
  end.

Fixpoint lstrip_char (q : ascii) (s : string) : string :=
  match s with
  | String c s' => if Ascii.eqb c q then lstrip_char q s' else s
  | EmptyString => EmptyString
  end.

Fixpoint rstrip_char (q : ascii) (s : string) : string :=
  match s with
  | String c s' =>
      match rstrip_char q s' with
      | EmptyString => if Ascii.eqb c q then EmptyString else String c EmptyString
      | r => String c r
      end
  | EmptyString => EmptyString
  end.

(** [s.strip(q)] for a single character [q]. *)
Definition strip_char (q : ascii) (s : string) : string := rstrip_char q (lstrip_char q s).

(** What a line of the file assigns: nothing for a blank line, a line
    that starts with [#] or a line without [=]. *)
Definition parse_line (line : string) : option (string * string) :=
  let line := Py.strip line in
  if negb (truthy (VStr line)) || Py.startswith "#" line || negb (Py.contains "=" line)
  then None
  else
    let '(key, value) := split_eq line in
    let key := Py.strip key in
    let value := strip_char Py.squote (strip_char Py.dquote (Py.strip value)) in
    Some (key, value).

(** [os.environ.setdefault(key, value)] *)
Definition setdefault (key value : string) (env : gmap string string)
  : result (gmap string string) :=
  match env !! key with
  | Some _ => Ok env
  | None =>
      if String.eqb key "" || Py.has_char "=" key || Py.has_char "000" key
         || Py.has_char "000" value
      then Raise ValueError
      else Ok (<[key := value]> env)
  end.

(** The loop of [load_dotenv] over the lines of the file. *)
Fixpoint load_lines (lines : list string) (env : gmap string string)
  : result (gmap string string) :=
  match lines with
  | [] => Ok env
  | line :: rest =>
      match parse_line line with
      | None => load_lines rest env
      | Some (key, value) =>
          let? env' := setdefault key value env in
          load_lines rest env'
      end
  end.

(** [load_dotenv], [file] being the text of the project-local file,
    [None] when there is none. *)
Definition load_dotenv (file : option string) (env : gmap string string)
  : result (gmap string string) :=
  match file with
  | None => Ok env
  | Some content => load_lines (splitlines content) env
  end.

End Dotenv.

(** [play_audio] in full: [platform] is [sys.platform], [installed] tells
    whether a program can be started ([subprocess.run] raises
    [FileNotFoundError] otherwise; its exit status is ignored). *)
Module Playback.

Inductive action : Type :=
| Run (argv : list string)
| Say (line : string).

(** [subprocess.run(argv, check=False)] *)
Definition run (installed : string -> bool) (argv : list string)
  : list action * result unit :=
  if installed (default "" (head argv)) then ([Run argv], Ok tt)
  else ([], Raise FileNotFoundError).

(** The loop over the players: the first one that starts. *)
Fixpoint first_player (installed : string -> bool) (players : list (list string))
  : option (list string) :=
  match players with
  | [] => None
  | player :: rest =>
      if installed (default "" (head player)) then Some player
      else first_player installed rest
  end.

Definition play_audio (platform : string) (installed : string -> bool) (path : string)
  : list action * result unit :=
  if String.eqb platform "darwin" then run installed ["afplay"; path]
  else
    match (if Py.startswith "linux" platform
           then first_player installed [["paplay"; path]; ["aplay"; path]]
           else None) with
    | Some player => ([Run player], Ok tt)
    | None =>
        if Py.startswith "win" platform
        then run installed ["cmd"; "/c"; "start"; ""; path]
        else ([Say "Playback not supported on this platform."], Ok tt)
    end.

(** The commands a trace started. *)
Fixpoint commands (tr : list action) : list (list string) :=
  match tr with
  | Run argv :: rest => argv :: commands rest
  | Say _ :: rest => commands rest
  | [] => []
  end.

End Playback.

(** ** Vocabulary of the further statements *)

(** The catalog request of [list_voices]. *)
Definition voices_call (api_key : string) : http_request :=
  {| hmethod := "GET";
     url := BASE_URL +:+ "/voices";
     headers := [("xi-api-key", api_key); ("Accept", "application/json")];
     params := [];
     json_body := None;
     timeout := 30 |}.

(** The message of a failed catalog request. *)
Definition catalog_failure `{JsonLib} (response : http_response) : string :=
  "List voices failed (" +:+ pretty (status_code response) +:+ "): "
  +:+ request_json_or_text response.

(** An event that is a printed line or the catalog request. *)
Definition print_or_catalog (api_key : string) (e : event) : Prop :=
  (exists line, e = Print line) \/ e = Http (voices_call api_key).

(** The statuses a trace answers with. *)
Fixpoint statuses (tr : list event) : list Z :=
  match tr with
  | SendResponse status :: rest => status :: statuses rest
  | _ :: rest => statuses rest
  | [] => []
  end.

(** The world whose environment is the finite map [env]. *)
Definition world_of_env (env : gmap string string) (w : World) : World :=
  {| environ := fun k => env !! k;
     read_text := read_text w;
     stdin_isatty := stdin_isatty w;
     stdin_read := stdin_read w;
     provider := provider w |}.

(** A provider that refuses every call with status 401. *)
Definition refusing (r : http_request) : http_response :=
  {| ok := false; status_code := 401; resp_text := "denied"; resp_json := None;
     content := "" |}.

(** [bare_world] with the API key set and the provider [p]. *)
Definition keyed_world (p : http_request -> http_response) : World :=
  {| environ := fun k => if String.eqb k "ELEVENLABS_API_KEY" then Some "key" else None;
     read_text := fun _ => None;
     stdin_isatty := true;
     stdin_read := "";
     provider := p |}.

(** [--list-voices] *)
Definition with_list_voices (args : Args.t) : Args.t :=
  {| Args.list_voices := true; Args.serve := Args.serve args;
     Args.host := Args.host args; Args.port := Args.port args;
     Args.cors_origin := Args.cors_origin args; Args.voice_id := Args.voice_id args;
     Args.voice_name := Args.voice_name args; Args.text := Args.text args;
     Args.text_file := Args.text_file args; Args.model_id := Args.model_id args;
     Args.output_format := Args.output_format args; Args.output := Args.output args;
     Args.no_logging := Args.no_logging args; Args.no_play := Args.no_play args;
     Args.voice_settings := Args.voice_settings args |}.

(** [--voice-settings JSON] *)
Definition with_voice_settings (settings : string) (args : Args.t) : Args.t :=
  {| Args.list_voices := Args.list_voices args; Args.serve := Args.serve args;
     Args.host := Args.host args; Args.port := Args.port args;
     Args.cors_origin := Args.cors_origin args; Args.voice_id := Args.voice_id args;
     Args.voice_name := Args.voice_name args; Args.text := Args.text args;
     Args.text_file := Args.text_file args; Args.model_id := Args.model_id args;
     Args.output_format := Args.output_format args; Args.output := Args.output args;
     Args.no_logging := Args.no_logging args; Args.no_play := Args.no_play args;
     Args.voice_settings := Some settings |}.

(** A project-local file: a comment, the API key twice, a default voice. *)
Definition sample_dotenv : string :=
  "# secrets" +:+ RefJson.newline
  +:+ "ELEVENLABS_API_KEY = 'abc'" +:+ RefJson.newline
  +:+ "ELEVENLABS_API_KEY=other" +:+ RefJson.newline
  +:+ "ELEVENLABS_VOICE_ID=v9" +:+ RefJson.newline.

(** The voice settings of a command line, as [main] decodes them:
    [None] when the option is missing or empty, a failure when the text
    does not decode. *)
Definition cli_settings `{JsonLib} (args : Args.t) : result pyval :=
  if truthy (of_opt (Args.voice_settings args))
  then
    match json_loads (py_str (of_opt (Args.voice_settings args))) with
    | Decoded v => Ok v
    | JSONDecodeError exc =>
        Raise (SystemExit (VStr ("Invalid --voice-settings JSON: " +:+ exc)))
    end
  else Ok VNone.

(** The API key of a world, as [get_api_key] returns it. *)
Definition api_key_of (w : World) : string := py_str (of_opt (environ w "ELEVENLABS_API_KEY")).

(** The synthesis call of a command line for a voice, a text and
    decoded voice settings. *)
Definition cli_call (args : Args.t) (api_key : string) (voice_id : pyval) (text : string)
    (settings : pyval) : http_request :=
  synthesis_call api_key voice_id text (of_opt (Args.model_id args))
    (of_opt (Args.output_format args)) (negb (Args.no_logging args)) settings.

(** [--no-play] *)
Definition with_no_play (args : Args.t) : Args.t :=
  {| Args.list_voices := Args.list_voices args; Args.serve := Args.serve args;
     Args.host := Args.host args; Args.port := Args.port args;
     Args.cors_origin := Args.cors_origin args; Args.voice_id := Args.voice_id args;
     Args.voice_name := Args.voice_name args; Args.text := Args.text args;
     Args.text_file := Args.text_file args; Args.model_id := Args.model_id args;
     Args.output_format := Args.output_format args; Args.output := Args.output args;
     Args.no_logging := Args.no_logging args; Args.no_play := true;
     Args.voice_settings := Args.voice_settings args |}.

(** [bare_world] with [ELEVENLABS_VOICE_MAP] set to [raw]. *)
Definition voice_map_world (raw : string) : World :=
  {| environ := fun k => if String.eqb k "ELEVENLABS_VOICE_MAP" then Some raw else None;
     read_text := fun _ => None;
     stdin_isatty := true;
     stdin_read := "";
     provider := accepting |}.

(** The synthesis call of the gateway for a decoded body: the model
    and the output format of the body when it gives them, those of the
    configuration otherwise. *)
Definition gateway_call (config : ServerConfig.t) (items : list (string * pyval))
  : http_request :=
  synthesis_call (ServerConfig.api_key config) (gateway_chain config items) (body_text items)
    (py_or (field items "model_id") (ServerConfig.model_id config))
    (py_or (field items "output_format") (ServerConfig.output_format config))
    (ServerConfig.enable_logging config) (field items "voice_settings").

(** The gateway whose voice map is the one [load_voice_map] builds from
    the members [items], with no default voice. *)
Definition config_of_map (items : list (string * pyval)) : ServerConfig.t :=
  {| ServerConfig.api_key := "key";
     ServerConfig.default_voice_id := VNone;
     ServerConfig.voice_map := voice_map_items items ∅;
     ServerConfig.output_format := VStr "mp3_44100_128";
     ServerConfig.model_id := VNone;
     ServerConfig.enable_logging := true;
     ServerConfig.cors_origin := "*" |}.

(** The members of a configured voice map: Bob twice, under two
    spellings, and a [null] entry. *)
Definition sample_voice_map : list (string * pyval) :=
  [(" Bob ", VStr " v1 "); ("BOB", VStr "v2"); ("eve", VNone)].

(** A POST to [/tts] with the raw body [body]. *)
Definition raw_post (body : string) : Request.t :=
  {| Request.path := "/tts";
     Request.content_length := Some (pretty (String.length body));
     Request.rfile := body |}.

(** ** Properties *)

Section Facts.
Context `{JsonLib}.

Lemma bind_lift_Ok {A B} (a : A) (k : A -> M B) w :
  (let* x := lift (Ok a) in k x) w = k a w.
Proof. unfold bind, lift. destruct (k a w). reflexivity. Qed.

Lemma bind_lift_Raise {A B} (e : exn) (k : A -> M B) w :
  (let* x := lift (Raise e) in k x) w = ([], Raise e).
Proof. reflexivity. Qed.

Lemma bind_ret {A B} (a : A) (k : A -> M B) w :
  (let* x := ret a in k x) w = k a w.
Proof. unfold bind, ret. destruct (k a w). reflexivity. Qed.

Lemma bind_ask {A B} (f : World -> A) (k : A -> M B) w :
  (let* x := ask f in k x) w = k (f w) w.
Proof. unfold bind, ask. destruct (k (f w) w). reflexivity. Qed.

Lemma bind_emit {B} (e : event) (k : M B) w :
  (emit e ;; k) w = (e :: fst (k w), snd (k w)).
Proof. unfold bind, emit. destruct (k w). reflexivity. Qed.

Lemma dict_get_items items k : dict_get (VDict items) k = Ok (field items k).
Proof. reflexivity. Qed.

Lemma send_json_run config status payload w :
  _send_json config status payload w = (json_response config status payload, Ok tt).
Proof. reflexivity. Qed.

Lemma send_audio_run config audio w :
  _send_audio config audio w = (audio_response config audio, Ok tt).
Proof. reflexivity. Qed.

Lemma no_calls_in_json_response config status payload :
  provider_calls (json_response config status payload) = [].
Proof. reflexivity. Qed.

Lemma synthesize_bytes_run api_key voice_id text model_id output_format logging settings w :
  let r := synthesis_call api_key voice_id text model_id output_format logging settings in
  synthesize_bytes api_key voice_id text model_id output_format logging settings w
  = ([Http r],
     if ok (provider w r) then Ok (content (provider w r))
     else Raise (SystemExit (VStr (synthesis_failure (provider w r))))).
Proof.
  intros r. subst r.
  unfold synthesize_bytes, synthesis_call, synthesis_failure, synthesis_url.
  destruct (truthy model_id), (truthy output_format), (truthy settings), logging;
    cbn [negb dict_set String.eqb Ascii.eqb Bool.eqb app];
    cbv beta iota zeta delta [bind requests_call emit ask raise ret app];
    destruct (ok (provider w _)); reflexivity.
Qed.

Lemma do_POST_object config request items w :
  Request.path request = "/tts" ->
  read_payload request = Ok (Decoded (VDict items)) ->
  do_POST config request w =
    if negb (truthy (VStr (body_text items)))
    then (json_response config 400 (error_envelope "Missing text"), Ok tt)
    else if negb (truthy (gateway_chain config items))
    then (json_response config 400 (error_envelope no_voice_message), Ok tt)
    else if refused_settings (field items "voice_settings")
    then (json_response config 400 (error_envelope "voice_settings must be an object"),
          Ok tt)
    else forwarded config
           (synthesis_call (ServerConfig.api_key config) (gateway_chain config items)
              (body_text items)
              (py_or (field items "model_id") (ServerConfig.model_id config))
              (py_or (field items "output_format") (ServerConfig.output_format config))
              (ServerConfig.enable_logging config) (field items "voice_settings")) w.
Proof.
  intros Hpath Hload. unfold do_POST. rewrite Hpath.
  change (negb (String.eqb "/tts" "/tts")) with false. cbv iota.
  rewrite Hload, bind_lift_Ok.
  rewrite !dict_get_items, bind_lift_Ok. fold (body_text items).
  destruct (truthy (VStr (body_text items))); [|reflexivity].
  cbn [negb]. rewrite !bind_lift_Ok.
  set (voice := if negb (truthy _) then py_or _ _ else _).
  assert (Hvoice : voice = gateway_chain config items).
  { subst voice. unfold gateway_chain, first_match, normalized, speaker_name, body_voice_id.
    generalize (Py.strip (py_str (py_or (field items "voice_id") (VStr "")))).
    generalize (default "" (ServerConfig.voice_map config
                            !! Py.lower (Py.strip (py_str (py_or (py_or (field items "name")
                                 (field items "speaker")) (VStr "")))))).
    intros mapped stated.
    destruct (truthy (VStr stated)) eqn:Hs; cbn [negb]; rewrite ?Hs; [reflexivity|].
    destruct (truthy (VStr mapped)) eqn:Hm; cbn [negb]; rewrite ?Hm; reflexivity. }
  rewrite Hvoice. clear voice Hvoice.
  destruct (truthy (gateway_chain config items)); [|reflexivity].
  cbn [negb]. rewrite !bind_lift_Ok. fold (refused_settings (field items "voice_settings")).
  destruct (refused_settings (field items "voice_settings")); [reflexivity|].
  unfold forwarded, bind at 1, try_except_SystemExit, bind at 1.
  rewrite synthesize_bytes_run. cbv zeta.
  destruct (ok (provider w _)); reflexivity.
Qed.

End Facts.

(** *** Text primitives *)

Lemma strip_examples :
  Py.strip "  Bob " = "Bob"
  /\ Py.strip (String "009" (String "010" " ")) = ""
  /\ Py.strip "a b" = "a b".
Proof. repeat split. Qed.

Lemma lower_examples : Py.lower "Adam" = "adam" /\ Py.lower "A-z_9" = "a-z_9".
Proof. split; reflexivity. Qed.

Lemma int_examples :
  Py.int "0" = Some 0 /\ Py.int " 12 " = Some 12 /\ Py.int "-7" = Some (-7)
  /\ Py.int "1_000" = Some 1000 /\ Py.int "" = None /\ Py.int "1__0" = None
  /\ Py.int "12a" = None.
Proof. repeat split. Qed.

Lemma str_examples :
  py_str (VInt (-12)) = "-12" /\ py_str (VBool true) = "True"
  /\ py_str (VList [VInt 1; VStr "a"; VNone]) = "[1, 'a', None]"
  /\ py_str (VDict [("k", VBool false)]) = "{'k': False}".
Proof. repeat split. Qed.

Lemma lstrip_blank s : blank s = true -> Py.lstrip s = "".
Proof.
  induction s as [|c s IH]; cbn; [reflexivity|].
  destruct (Py.is_space c); cbn; [exact IH | discriminate].
Qed.

Lemma lstrip_empty_blank s : Py.lstrip s = "" -> blank s = true.
Proof.
  induction s as [|c s IH]; cbn; [reflexivity|].
  destruct (Py.is_space c); cbn; [exact IH | discriminate].
Qed.

Lemma lstrip_head s c r : Py.lstrip s = String c r -> Py.is_space c = false.
Proof.
  induction s as [|a s IH]; cbn; [discriminate|].
  destruct (Py.is_space a) eqn:Ha; [exact IH|].
  intros [= <- _]. exact Ha.
Qed.

Lemma rstrip_head c r : Py.is_space c = false -> Py.rstrip (String c r) <> "".
Proof.
  intros Hc. cbn. destruct (Py.rstrip r); [rewrite Hc|]; discriminate.
Qed.

(** [strip] leaves nothing exactly when the text is blank. *)
Lemma strip_empty_iff s : Py.strip s = "" <-> blank s = true.
Proof.
  unfold Py.strip. split.
  - intros Hs. apply lstrip_empty_blank.
    destruct (Py.lstrip s) as [|c r] eqn:Hl; [reflexivity|].
    apply lstrip_head in Hl. apply (rstrip_head c r) in Hl. contradiction.
  - intros Hb. rewrite (lstrip_blank s Hb). reflexivity.
Qed.

Lemma startswith_spec p s :
  Py.startswith p s = true <-> exists after, s = p +:+ after.
Proof.
  revert s. induction p as [|a p IH]; intros s; cbn.
  - split; [intros _; exists s; reflexivity | reflexivity].
  - destruct s as [|b s].
    + split; [discriminate | intros [after Hafter]; discriminate].
    + destruct (Ascii.eqb a b) eqn:Hab.
      * apply Ascii.eqb_eq in Hab. subst b. rewrite IH. split.
        -- intros [after ->]. exists after. reflexivity.
        -- intros [after [= ->]]. exists after. reflexivity.
      * apply Ascii.eqb_neq in Hab. split; [discriminate|].
        intros [after [= <- _]]. contradiction.
Qed.

(** [contains] decides occurrence. *)
Lemma contains_spec q s : Py.contains q s = true <-> occurs_in q s.
Proof.
  unfold occurs_in. induction s as [|c s IH]; cbn.
  - rewrite orb_false_r, startswith_spec. split.
    + intros [after ->]. exists "", after. reflexivity.
    + intros [[|b before] [after Heq]]; [exists after; exact Heq | discriminate].
  - rewrite orb_true_iff, startswith_spec, IH. split.
    + intros [[after ->] | (before & after & ->)].
      * exists "", after. reflexivity.
      * exists (String c before), after. reflexivity.
    + intros [[|b before] [after Heq]].
      * left. exists after. exact Heq.
      * right. injection Heq as <- ->. exists before, after. reflexivity.
Qed.

(** *** The gateway *)

Section Gateway.
Context `{JsonLib}.

Lemma falsy_text_blank v : truthy v = false -> Py.strip (py_str (py_or v (VStr ""))) = "".
Proof. intros Hv. unfold py_or. rewrite Hv. reflexivity. Qed.



(** C9.  A POST to [/tts] with no [Content-Length] header, or with one
    that reads as zero, carries the empty object: nothing is read, the
    text handed to the decoder is [{}], and the answer is 400 with
    [{"error": "Missing text"}], not the answer to undecodable JSON. *)
Theorem empty_body_is_empty_object config request w :
  Request.path request = "/tts" ->
  (Request.content_length request = None
   \/ exists s, Request.content_length request = Some s /\ Py.int s = Some 0) ->
  read_payload request = Ok (Decoded (VDict []))
  /\ do_POST config request w
     = (json_response config 400 (error_envelope "Missing text"), Ok tt).
Proof.
  intros Hpath Hlen.
  assert (Hload : read_payload request = Ok (Decoded (VDict []))).
  { unfold read_payload.
    assert (Hint : Py.int (default "0" (Request.content_length request)) = Some 0).
    { destruct Hlen as [-> | (s & -> & Hs)]; [reflexivity | exact Hs]. }
    rewrite Hint. cbn. rewrite json_loads_empty_object. reflexivity. }
  split; [exact Hload|].
  rewrite (do_POST_object config request [] w Hpath Hload). reflexivity.
Qed.

(** C7.  [synthesize_bytes] makes exactly one provider call.  Its JSON
    body always has [text]; it has [model_id] exactly when the model id
    is non-empty and [voice_settings] exactly when the settings are
    non-empty, and nothing else.  Its query has [output_format] exactly
    when one is given and [enable_logging=false] exactly when logging
    is off, and nothing else. *)
Theorem synthesis_call_contents api_key voice_id text model_id output_format
    logging settings w :
  exists r payload,
    provider_calls (fst (synthesize_bytes api_key voice_id text model_id output_format
                           logging settings w)) = [r]
    /\ json_body r = Some payload
    /\ assoc "text" payload = Some (VStr text)
    /\ assoc "model_id" payload = (if truthy model_id then Some model_id else None)
    /\ assoc "voice_settings" payload = (if truthy settings then Some settings else None)
    /\ assoc "output_format" (params r)
       = (if truthy output_format then Some output_format else None)
    /\ assoc "enable_logging" (params r) = (if logging then None else Some (VStr "false"))
    /\ (forall k, In k (map fst payload) -> In k ["text"; "model_id"; "voice_settings"])
    /\ (forall k, In k (map fst (params r)) -> In k ["output_format"; "enable_logging"]).
Proof.
  rewrite synthesize_bytes_run. cbv zeta. eexists. eexists.
  split; [reflexivity|]. split; [reflexivity|].
  unfold synthesis_call. cbn [params json_body].
  destruct (truthy model_id), (truthy settings), (truthy output_format), logging;
    cbn; repeat split; try reflexivity; intros k Hk; tauto.
Qed.

End Gateway.



(** C9, at a POST to [/tts] with [Content-Length: 0]. *)
Lemma empty_body_is_empty_object_witness :
  do_POST (H := RefJson.lib) bare_config
    {| Request.path := "/tts"; Request.content_length := Some "0"; Request.rfile := "" |}
    bare_world
  = (json_response (H := RefJson.lib) bare_config 400 (error_envelope "Missing text"), Ok tt).
Proof.
  apply (empty_body_is_empty_object (H := RefJson.lib) bare_config
           {| Request.path := "/tts"; Request.content_length := Some "0";
              Request.rfile := "" |} bare_world).
  - reflexivity.
  - right. exists "0". split; reflexivity.
Defined.

Section Resolution.
Context `{JsonLib}.

Lemma truthy_str s : truthy (VStr s) = true <-> s <> "".
Proof.
  cbn. destruct (String.eqb s "") eqn:Hs.
  - apply String.eqb_eq in Hs. split; [discriminate | contradiction].
  - apply String.eqb_neq in Hs. split; [intros _; exact Hs | reflexivity].
Qed.

Lemma forwarded_calls config r w : provider_calls (fst (forwarded config r w)) = [r].
Proof. unfold forwarded. destruct (ok (provider w r)); reflexivity. Qed.



Lemma do_POST_same_reading config request1 request2 items1 items2 w :
  Request.path request1 = "/tts" ->
  Request.path request2 = "/tts" ->
  read_payload request1 = Ok (Decoded (VDict items1)) ->
  read_payload request2 = Ok (Decoded (VDict items2)) ->
  agree_except ["name"; "speaker"] items1 items2 ->
  speaker_name items1 = speaker_name items2 ->
  do_POST config request1 w = do_POST config request2 w.
Proof.
  intros Hp1 Hp2 Hl1 Hl2 Hagree Hspeaker.
  assert (Hfield : forall k, k <> "name" -> k <> "speaker" -> field items1 k = field items2 k).
  { intros k Hn Hs. unfold field. rewrite (Hagree k); [reflexivity|].
    cbn. intros [Heq | [Heq | []]]; congruence. }
  rewrite (do_POST_object config request1 items1 w Hp1 Hl1).
  rewrite (do_POST_object config request2 items2 w Hp2 Hl2).
  unfold gateway_chain, body_text, body_voice_id.
  rewrite Hspeaker.
  rewrite (Hfield "text"), (Hfield "voice_id"), (Hfield "model_id"),
    (Hfield "output_format"), (Hfield "voice_settings") by discriminate.
  reflexivity.
Qed.


End Resolution.






(** *** The command line *)

Section CommandLine.
Context `{JsonLib}.

Lemma bind_run {A B} (c : M A) (k : A -> M B) w tr a :
  c w = (tr, Ok a) -> (let* x := c in k x) w = (tr ++ fst (k a w), snd (k a w)).
Proof. intros Hc. unfold bind. rewrite Hc. destruct (k a w). reflexivity. Qed.

Lemma bind_run_Raise {A B} (c : M A) (k : A -> M B) w tr e :
  c w = (tr, Raise e) -> (let* x := c in k x) w = (tr, Raise e).
Proof. intros Hc. unfold bind. rewrite Hc. reflexivity. Qed.

Lemma name_matches_wellformed query voices :
  Forall (fun voice => is_Some (voice_name_text voice)) voices ->
  name_matches query voices = Ok (matches_of query voices).
Proof.
  induction 1 as [|voice voices [n Hn] _ IH]; [reflexivity|].
  cbn [name_matches matches_of List.filter]. fold (matches_of query voices).
  rewrite Hn. unfold voice_name_text in Hn.
  destruct voice as [| | | |?|items]; try discriminate.
  rewrite dict_get_items. cbn [rbind].
  destruct (py_or (field items "name") (VStr "")); try discriminate.
  injection Hn as ->. cbn [str_lower rbind]. rewrite IH. reflexivity.
Qed.

Lemma print_voices_wellformed voices w :
  Forall (fun voice => is_Some (voice_name_text voice)) voices ->
  print_voices voices w = (map (fun voice => Print (voice_line voice)) voices, Ok tt).
Proof.
  induction 1 as [|voice voices [n Hn] _ IH]; [reflexivity|].
  unfold voice_name_text in Hn.
  destruct voice as [| | | |?|items]; try discriminate. clear Hn.
  cbn [print_voices]. rewrite !dict_get_items, !bind_lift_Ok, bind_emit, IH.
  reflexivity.
Qed.

Lemma matches_of_wellformed query voices :
  Forall (fun voice => is_Some (voice_name_text voice)) voices ->
  Forall (fun voice => is_Some (voice_name_text voice)) (matches_of query voices).
Proof.
  intros Hall. apply Forall_forall. intros voice Hin.
  apply list_elem_of_In in Hin. unfold matches_of in Hin.
  apply filter_In in Hin as [Hin _].
  rewrite Forall_forall in Hall. apply Hall, list_elem_of_In, Hin.
Qed.


End CommandLine.

Section Precedence.
Context `{JsonLib}.


Lemma voice_map_items_origin items :
  forall (m : gmap string string) k v,
    voice_map_items items m !! k = Some v ->
    m !! k = Some v
    \/ exists key value,
        In (key, value) items /\ value <> VNone
        /\ k = normalized key /\ v = Py.strip (py_str value).
Proof.
  induction items as [|[key value] items IH]; intros m k v Hk; [left; exact Hk|].
  cbn [voice_map_items] in Hk. destruct (is_none value) eqn:Hnone.
  - destruct (IH _ _ _ Hk) as [Hm | (key' & value' & Hin & Hrest)]; [left; exact Hm|].
    right. exists key', value'. split; [right; exact Hin | exact Hrest].
  - destruct (IH _ _ _ Hk) as [Hm | (key' & value' & Hin & Hrest)].
    + destruct (decide (Py.lower (Py.strip key) = k)) as [<- | Hne].
      * rewrite lookup_insert_eq in Hm. injection Hm as <-.
        right. exists key, value. split; [left; reflexivity|].
        split; [intros ->; discriminate|]. split; reflexivity.
      * rewrite lookup_insert_ne in Hm by exact Hne. left. exact Hm.
    + right. exists key', value'. split; [right; exact Hin | exact Hrest].
Qed.

(** Every key of the voice map [load_voice_map] builds is a trimmed,
    lower-cased key of the configured object, bound to the trimmed text
    of a value of that object. *)
Lemma load_voice_map_normalized w voice_map k v :
  load_voice_map w = ([], Ok voice_map) ->
  voice_map !! k = Some v ->
  exists key value, k = normalized key /\ v = Py.strip (py_str value).
Proof.
  unfold load_voice_map, getenv. rewrite bind_ask.
  destruct (truthy (of_opt (environ w "ELEVENLABS_VOICE_MAP"))); cbn [negb].
  - destruct (json_loads _) as [[| | | | |items]|]; try discriminate.
    intros [= <-] Hk.
    destruct (voice_map_items_origin items ∅ k v Hk) as [He | (key & value & _ & _ & Hkv)].
    + rewrite lookup_empty in He. discriminate.
    + exists key, value. exact Hkv.
  - intros [= <-] Hk. rewrite lookup_empty in Hk. discriminate.
Qed.

Ltac enter_post Hin Hpath Hload :=
  unfold do_POST in Hin; rewrite Hpath in Hin;
  change (negb (String.eqb "/tts" "/tts")) with false in Hin;
  cbv iota in Hin; rewrite Hload in Hin.

(** X23.  The gateway half of the forwarding invariant: whatever the request,
    a provider call made by [do_POST] is a synthesis for a non-empty
    voice id with a non-empty text, the configured default being a
    string or absent. *)
Theorem gateway_forwards_nonempty config request w r :
  (ServerConfig.default_voice_id config = VNone
   \/ exists s, ServerConfig.default_voice_id config = VStr s) ->
  In r (provider_calls (fst (do_POST config request w))) ->
  exists voice text,
    voice <> "" /\ text <> ""
    /\ url r = synthesis_url voice /\ call_text r = Some (VStr text).
Proof.
  intros Hdefault Hin.
  destruct (String.eqb (Request.path request) "/tts") eqn:Hpath.
  2: { unfold do_POST in Hin. rewrite Hpath in Hin. contradiction. }
  apply String.eqb_eq in Hpath.
  destruct (read_payload request) as [[payload|msg]|e] eqn:Hload.
  3: { enter_post Hin Hpath Hload. contradiction. }
  2: { enter_post Hin Hpath Hload. rewrite bind_lift_Ok in Hin. contradiction. }
  destruct payload as [| | | | |items];
    try (enter_post Hin Hpath Hload; rewrite bind_lift_Ok in Hin; contradiction).
  rewrite (do_POST_object config request items w Hpath Hload) in Hin.
  destruct (truthy (VStr (body_text items))) eqn:Htext; [|contradiction].
  destruct (truthy (gateway_chain config items)) eqn:Hvoice; [|contradiction].
  destruct (refused_settings (field items "voice_settings")); [contradiction|].
  cbn [negb] in Hin. rewrite forwarded_calls in Hin. destruct Hin as [<- | []].
  assert (Hstr : exists voice, gateway_chain config items = VStr voice).
  { unfold gateway_chain, first_match.
    destruct (truthy (VStr (body_voice_id items))); [eexists; reflexivity|].
    destruct (truthy (VStr (default "" _))); [eexists; reflexivity|].
    destruct Hdefault as [-> | [s ->]]; cbn [truthy].
    - eexists; reflexivity.
    - destruct (negb (String.eqb s "")); eexists; reflexivity. }
  destruct Hstr as [voice Hv]. rewrite Hv in *.
  exists voice, (body_text items).
  split; [apply truthy_str, Hvoice|]. split; [apply truthy_str, Htext|].
  split; reflexivity.
Qed.

End Precedence.





(** C2: the command line forwards an empty text.  With [--voice-id v1
    --text-file empty.txt], the file being empty, [main] calls the
    provider once, and the text of that call is empty. *)
Theorem cli_forwards_empty_text :
  map call_text
    (provider_calls
       (fst (main (H := RefJson.lib) (with_text_file "empty.txt" (with_voice_id "v1" no_args))
               (cli_world None []))))
  = [Some (VStr "")].
Proof. vm_compute. reflexivity. Qed.

(** The command line also forwards an empty voice id: with [--voice-name
    ada --text hi] and a catalog whose only match has an empty id, the
    synthesis call of [main] is made for the empty voice id. *)
Lemma cli_forwards_empty_voice_id :
  map url
    (provider_calls
       (fst (main (H := RefJson.lib) (with_text "hi" (with_voice_name "ada" no_args))
               (cli_world None [voice_without_id; nadia]))))
  = [BASE_URL +:+ "/voices"; synthesis_url ""].
Proof. vm_compute. reflexivity. Qed.

(** ** Further properties of the program *)

(** *** More on the text primitives *)

Lemma is_space_lower_char c : Py.is_space (Py.lower_char c) = Py.is_space c.
Proof. destruct c as [[] [] [] [] [] [] [] []]; reflexivity. Qed.

Lemma lower_char_idempotent c : Py.lower_char (Py.lower_char c) = Py.lower_char c.
Proof. destruct c as [[] [] [] [] [] [] [] []]; reflexivity. Qed.

Lemma lower_idempotent s : Py.lower (Py.lower s) = Py.lower s.
Proof.
  induction s as [|c s IH]; cbn [Py.lower]; [reflexivity|].
  rewrite lower_char_idempotent, IH. reflexivity.
Qed.

Lemma lstrip_lower s : Py.lstrip (Py.lower s) = Py.lower (Py.lstrip s).
Proof.
  induction s as [|c s IH]; cbn [Py.lower Py.lstrip]; [reflexivity|].
  rewrite is_space_lower_char. destruct (Py.is_space c); [exact IH | reflexivity].
Qed.

Lemma rstrip_lower s : Py.rstrip (Py.lower s) = Py.lower (Py.rstrip s).
Proof.
  induction s as [|c s IH]; cbn [Py.lower Py.rstrip]; [reflexivity|].
  rewrite IH, is_space_lower_char.
  destruct (Py.rstrip s); cbn [Py.lower]; [destruct (Py.is_space c)|]; reflexivity.
Qed.

Lemma strip_lower s : Py.strip (Py.lower s) = Py.lower (Py.strip s).
Proof. unfold Py.strip. rewrite lstrip_lower, rstrip_lower. reflexivity. Qed.

Lemma rstrip_idempotent s : Py.rstrip (Py.rstrip s) = Py.rstrip s.
Proof.
  induction s as [|c s IH]; [reflexivity|].
  cbn [Py.rstrip]. destruct (Py.rstrip s) as [|d r] eqn:Hr.
  - destruct (Py.is_space c) eqn:Hc; [reflexivity|]. cbn. rewrite Hc. reflexivity.
  - cbn [Py.rstrip] in *. rewrite IH. reflexivity.
Qed.

Lemma lstrip_unpadded s :
  match s with String c _ => Py.is_space c = false | EmptyString => True end ->
  Py.lstrip (Py.rstrip s) = Py.rstrip s.
Proof.
  destruct s as [|c r]; [reflexivity|]. intros Hc. cbn [Py.rstrip].
  destruct (Py.rstrip r); [rewrite Hc|]; cbn [Py.lstrip]; rewrite Hc; reflexivity.
Qed.

Lemma strip_idempotent s : Py.strip (Py.strip s) = Py.strip s.
Proof.
  unfold Py.strip. rewrite lstrip_unpadded.
  - apply rstrip_idempotent.
  - destruct (Py.lstrip s) as [|c r] eqn:Hl; [exact I|]. exact (lstrip_head s c r Hl).
Qed.

Lemma normalized_idempotent s : normalized (normalized s) = normalized s.
Proof.
  unfold normalized.
  rewrite <- strip_lower, lower_idempotent, strip_lower, strip_idempotent. reflexivity.
Qed.

(** *** [load_dotenv] *)

Lemma setdefault_keeps key value (env env' : gmap string string) k v :
  Dotenv.setdefault key value env = Ok env' -> env !! k = Some v -> env' !! k = Some v.
Proof.
  unfold Dotenv.setdefault. intros Hset Hk.
  destruct (env !! key) eqn:Hkey.
  - injection Hset as <-. exact Hk.
  - destruct (_ || _) in Hset; [discriminate|]. injection Hset as <-.
    rewrite lookup_insert_ne; [exact Hk|]. intros ->. congruence.
Qed.

Lemma load_lines_keeps lines :
  forall (env env' : gmap string string) k v,
    Dotenv.load_lines lines env = Ok env' -> env !! k = Some v -> env' !! k = Some v.
Proof.
  induction lines as [|line lines IH]; intros env env' k v Hload Hk; cbn in Hload.
  - injection Hload as <-. exact Hk.
  - destruct (Dotenv.parse_line line) as [[key value]|]; [|exact (IH _ _ _ _ Hload Hk)].
    destruct (Dotenv.setdefault key value env) as [env1|e] eqn:Hset; [|discriminate].
    cbn in Hload. apply (IH _ _ _ _ Hload). exact (setdefault_keeps _ _ _ _ _ _ Hset Hk).
Qed.

Lemma load_lines_first before :
  forall line after (env env' : gmap string string) key value,
    Dotenv.load_lines (before ++ line :: after) env = Ok env' ->
    Dotenv.parse_line line = Some (key, value) ->
    env !! key = None ->
    (forall l v, In l before -> Dotenv.parse_line l <> Some (key, v)) ->
    env' !! key = Some value.
Proof.
  induction before as [|l before IH]; intros line after env env' key value Hload Hline Hkey Hfresh.
  - cbn in Hload. rewrite Hline in Hload.
    destruct (Dotenv.setdefault key value env) as [env1|e] eqn:Hset; [|discriminate].
    cbn in Hload. apply (load_lines_keeps _ _ _ _ _ Hload).
    unfold Dotenv.setdefault in Hset. rewrite Hkey in Hset.
    destruct (_ || _) in Hset; [discriminate|]. injection Hset as <-.
    apply lookup_insert_eq.
  - cbn in Hload.
    assert (Hrest : forall l' v, In l' before -> Dotenv.parse_line l' <> Some (key, v)).
    { intros l' v Hin. apply Hfresh. right. exact Hin. }
    destruct (Dotenv.parse_line l) as [[k0 v0]|] eqn:Hl.
    + destruct (Dotenv.setdefault k0 v0 env) as [env1|e] eqn:Hset; [|discriminate].
      cbn in Hload. apply (IH _ _ _ _ _ _ Hload Hline); [|exact Hrest].
      unfold Dotenv.setdefault in Hset. destruct (env !! k0) eqn:Hk0.
      * injection Hset as <-. exact Hkey.
      * destruct (_ || _) in Hset; [discriminate|]. injection Hset as <-.
        rewrite lookup_insert_ne; [exact Hkey|]. intros ->.
        apply (Hfresh l v0); [left; reflexivity | exact Hl].
    + apply (IH _ _ _ _ _ _ Hload Hline Hkey Hrest).
Qed.

Lemma load_lines_origin lines :
  forall (env env' : gmap string string) k v,
    Dotenv.load_lines lines env = Ok env' ->
    env' !! k = Some v ->
    env !! k = Some v \/ exists line, In line lines /\ Dotenv.parse_line line = Some (k, v).
Proof.
  induction lines as [|line lines IH]; intros env env' k v Hload Hk; cbn in Hload.
  - injection Hload as <-. left. exact Hk.
  - destruct (Dotenv.parse_line line) as [[key value]|] eqn:Hline.
    + destruct (Dotenv.setdefault key value env) as [env1|e] eqn:Hset; [|discriminate].
      cbn in Hload. destruct (IH _ _ _ _ Hload Hk) as [Hin | (l & Hin & Hl)].
      * unfold Dotenv.setdefault in Hset. destruct (env !! key) eqn:Hkey.
        -- injection Hset as <-. left. exact Hin.
        -- destruct (_ || _) in Hset; [discriminate|]. injection Hset as <-.
           destruct (decide (key = k)) as [-> | Hne].
           ++ rewrite lookup_insert_eq in Hin. injection Hin as <-.
              right. exists line. split; [left; reflexivity | exact Hline].
           ++ rewrite lookup_insert_ne in Hin by exact Hne. left. exact Hin.
      * right. exists l. split; [right; exact Hin | exact Hl].
    + destruct (IH _ _ _ _ Hload Hk) as [Hin | (l & Hin & Hl)]; [left; exact Hin|].
      right. exists l. split; [right; exact Hin | exact Hl].
Qed.

(** X1.  [load_dotenv] never changes a variable the environment already
    has: whatever the file assigns, the value of the environment stays. *)
Theorem dotenv_environment_wins file (env env' : gmap string string) k v :
  Dotenv.load_dotenv file env = Ok env' ->
  env !! k = Some v ->
  env' !! k = Some v.
Proof.
  destruct file as [content|]; cbn.
  - apply load_lines_keeps.
  - intros [= <-] Hk. exact Hk.
Qed.



(** X1, at the sample file and an environment that has the default
    voice already. *)
Lemma dotenv_environment_wins_witness :
  (<["ELEVENLABS_API_KEY" := "abc"]> (<["ELEVENLABS_VOICE_ID" := "mine"]> ∅)
   : gmap string string) !! "ELEVENLABS_VOICE_ID" = Some "mine".
Proof.
  apply (dotenv_environment_wins (Some sample_dotenv)
           (<["ELEVENLABS_VOICE_ID" := "mine"]> ∅)).
  - vm_compute. reflexivity.
  - reflexivity.
Defined.



Section ApiKey.
Context `{JsonLib}.


End ApiKey.


(** *** Playback *)

Lemma linux_is_not_darwin_nor_windows platform :
  Py.startswith "linux" platform = true ->
  String.eqb platform "darwin" = false /\ Py.startswith "win" platform = false.
Proof.
  intros Hlinux. apply startswith_spec in Hlinux as [rest ->]. split; reflexivity.
Qed.

(** X5.  On a Linux platform [play_audio] starts [paplay] if it is
    installed, else [aplay] if that is installed, and never both; with
    neither installed it starts nothing and says that playback is not
    supported. *)
Theorem playback_on_linux platform installed path :
  Py.startswith "linux" platform = true ->
  Playback.play_audio platform installed path
  = if installed "paplay" then ([Playback.Run ["paplay"; path]], Ok tt)
    else if installed "aplay" then ([Playback.Run ["aplay"; path]], Ok tt)
    else ([Playback.Say "Playback not supported on this platform."], Ok tt).
Proof.
  intros Hlinux. destruct (linux_is_not_darwin_nor_windows platform Hlinux) as [Hd Hw].
  unfold Playback.play_audio. rewrite Hd, Hlinux, Hw. cbn.
  destruct (installed "paplay"); [reflexivity|].
  destruct (installed "aplay"); reflexivity.
Qed.

(** X5, on [linux] with [aplay] alone installed. *)
Lemma playback_on_linux_witness :
  Playback.play_audio "linux" (fun program => String.eqb program "aplay") "out.mp3"
  = ([Playback.Run ["aplay"; "out.mp3"]], Ok tt).
Proof.
  exact (playback_on_linux "linux" (fun program => String.eqb program "aplay") "out.mp3"
           eq_refl).
Defined.

(** X6.  On every platform [play_audio] starts at most one program,
    and the only way it fails is [FileNotFoundError] with nothing
    started, which happens on macOS and Windows only (there the missing
    player is not caught). *)
Theorem playback_starts_at_most_one platform installed path :
  (length (Playback.commands (fst (Playback.play_audio platform installed path))) <= 1)%nat
  /\ (snd (Playback.play_audio platform installed path) = Ok tt
      \/ (Playback.play_audio platform installed path = ([], Raise FileNotFoundError)
          /\ (platform = "darwin" \/ Py.startswith "win" platform = true))).
Proof.
  unfold Playback.play_audio, Playback.run.
  destruct (String.eqb platform "darwin") eqn:Hd; [apply String.eqb_eq in Hd|];
    destruct (Py.startswith "linux" platform);
    destruct (Py.startswith "win" platform) eqn:Hw; cbn;
    destruct (installed "afplay"), (installed "paplay"), (installed "aplay"),
      (installed "cmd");
    cbn; (split; [lia | auto]).
Qed.

(** *** The catalog and the command line, continued *)

Section Catalog.
Context `{JsonLib}.

Lemma list_voices_run api_key w :
  list_voices api_key w
  = ([Http (voices_call api_key)],
     if ok (provider w (voices_call api_key))
     then match resp_json (provider w (voices_call api_key)) with
          | None => Raise ValueError
          | Some (VDict items) => Ok (default (VList []) (assoc "voices" items))
          | Some _ => Raise AttributeError
          end
     else Raise (SystemExit (VStr (catalog_failure (provider w (voices_call api_key)))))).
Proof.
  unfold list_voices, voices_call, catalog_failure.
  cbv beta iota zeta delta [bind requests_call emit ask raise ret lift app].
  destruct (ok (provider w _)); cbn [negb]; [|reflexivity].
  destruct (resp_json (provider w _)) as [[| | | | |items]|]; reflexivity.
Qed.

(** X7.  [list_voices] makes exactly one request, the GET of the
    catalog with the API key, and never a second one.  A refusal ends it
    with the status and the body of the answer in the message; an
    accepted answer whose object has no [voices] member is the empty
    catalog; an answer that is not an object fails with
    [AttributeError]. *)
Theorem list_voices_outcome api_key w :
  fst (list_voices api_key w) = [Http (voices_call api_key)]
  /\ (ok (provider w (voices_call api_key)) = false ->
      snd (list_voices api_key w)
      = Raise (SystemExit (VStr (catalog_failure (provider w (voices_call api_key))))))
  /\ (forall items,
         ok (provider w (voices_call api_key)) = true ->
         resp_json (provider w (voices_call api_key)) = Some (VDict items) ->
         snd (list_voices api_key w)
         = Ok (match assoc "voices" items with Some voices => voices | None => VList [] end))
  /\ (forall payload,
         ok (provider w (voices_call api_key)) = true ->
         resp_json (provider w (voices_call api_key)) = Some payload ->
         is_dict payload = false ->
         snd (list_voices api_key w) = Raise AttributeError).
Proof.
  rewrite list_voices_run. cbn [fst snd]. split; [reflexivity|]. split; [|split].
  - intros ->. reflexivity.
  - intros items -> ->. destruct (assoc "voices" items); reflexivity.
  - intros payload -> -> Hdict. destruct payload; try reflexivity. discriminate.
Qed.

Lemma print_voices_objects good :
  forall tail w,
    Forall (fun voice => is_dict voice = true) good ->
    print_voices (good ++ tail) w
    = (map (fun voice => Print (voice_line voice)) good ++ fst (print_voices tail w),
       snd (print_voices tail w)).
Proof.
  induction good as [|voice good IH]; intros tail w Hgood.
  - cbn. destruct (print_voices tail w). reflexivity.
  - inversion Hgood as [|? ? Hvoice Hrest]; subst.
    destruct voice as [| | | | |items]; try discriminate.
    cbn [app print_voices]. rewrite !dict_get_items, !bind_lift_Ok, bind_emit.
    rewrite (IH tail w Hrest). reflexivity.
Qed.

(** X8.  [print_voices] prints one line per voice, in order, with the
    category in brackets when there is one.  At the first entry that is
    not an object it stops with [AttributeError], the lines of the
    entries before it being printed already. *)
Theorem print_voices_until_malformed good tail w :
  Forall (fun voice => is_dict voice = true) good ->
  match tail with
  | [] => True
  | bad :: _ => is_dict bad = false
  end ->
  print_voices (good ++ tail) w
  = (map (fun voice => Print (voice_line voice)) good,
     match tail with
     | [] => Ok tt
     | _ :: _ => Raise AttributeError
     end).
Proof.
  intros Hgood Htail. rewrite (print_voices_objects good tail w Hgood).
  destruct tail as [|bad rest]; cbn.
  - rewrite app_nil_r. reflexivity.
  - destruct bad; try discriminate; rewrite app_nil_r; reflexivity.
Qed.

Lemma print_voices_prints voices :
  forall w, Forall (fun e => exists line, e = Print line) (fst (print_voices voices w)).
Proof.
  induction voices as [|voice voices IH]; intros w; [constructor|].
  destruct voice as [| | | | |items]; try constructor.
  cbn [print_voices]. rewrite !dict_get_items, !bind_lift_Ok, bind_emit. cbn [fst].
  constructor; [eexists; reflexivity | apply IH].
Qed.

Lemma pick_voice_by_name_prints voices name_query w :
  Forall (fun e => exists line, e = Print line) (fst (pick_voice_by_name voices name_query w)).
Proof.
  unfold pick_voice_by_name.
  destruct (py_iter voices) as [vs|e]; [|constructor]. rewrite bind_lift_Ok.
  destruct (name_matches _ vs) as [matches|e]; [|constructor]. rewrite bind_lift_Ok.
  destruct (negb (truthy (VList matches))); [constructor|].
  destruct (1 <? length matches)%nat.
  - rewrite bind_emit. cbn [fst]. constructor; [eexists; reflexivity|].
    unfold bind. pose proof (print_voices_prints matches w) as Hp.
    destruct (print_voices matches w) as [tr [[]|e]]; cbn [fst] in *.
    + cbn. rewrite app_nil_r. exact Hp.
    + exact Hp.
  - unfold lift. destruct (py_first _); constructor.
Qed.

Lemma resolve_voice_id_events api_key args w :
  fst (resolve_voice_id api_key args w) = []
  \/ exists tr,
      fst (resolve_voice_id api_key args w) = Http (voices_call api_key) :: tr
      /\ Forall (fun e => exists line, e = Print line) tr.
Proof.
  unfold resolve_voice_id.
  destruct (truthy (of_opt (Args.voice_id args))); [left; reflexivity|].
  unfold getenv. rewrite bind_ask.
  destruct (truthy (of_opt (environ w "ELEVENLABS_VOICE_ID"))); [left; reflexivity|].
  right. unfold bind at 1. rewrite list_voices_run.
  destruct (if ok _ then _ else _) as [voices|e].
  2: { exists []. split; [reflexivity | constructor]. }
  destruct (truthy (of_opt (Args.voice_name args))).
  - unfold bind.
    pose proof (pick_voice_by_name_prints voices
                  (py_str (of_opt (Args.voice_name args))) w) as Hp.
    destruct (pick_voice_by_name voices _ w) as [tr [voice|e]]; cbn [fst] in *.
    + exists (tr ++ []). split; [reflexivity|]. rewrite app_nil_r. exact Hp.
    + exists tr. split; [reflexivity | exact Hp].
  - destruct (negb (truthy voices)).
    { exists []. split; [reflexivity | constructor]. }
    unfold bind at 1, lift at 1. destruct (py_first voices) as [first|e].
    2: { exists []. split; [reflexivity | constructor]. }
    unfold bind at 1, lift at 1. destruct (dict_get first "voice_id") as [voice_id|e].
    2: { exists []. split; [reflexivity | constructor]. }
    unfold bind at 1, lift at 1. destruct (dict_get first "name") as [name|e].
    2: { exists []. split; [reflexivity | constructor]. }
    destruct (negb (truthy voice_id)).
    { exists []. split; [reflexivity | constructor]. }
    eexists. split; [reflexivity|]. repeat constructor. eexists; reflexivity.
Qed.

Lemma resolve_voice_id_quiet api_key args w :
  Forall (print_or_catalog api_key) (fst (resolve_voice_id api_key args w)).
Proof.
  destruct (resolve_voice_id_events api_key args w) as [-> | (tr & -> & Hp)];
    [constructor|].
  constructor; [right; reflexivity|].
  eapply Forall_impl; [exact Hp|]. intros e He. left. exact He.
Qed.

(** X12.  Resolving the voice never synthesizes and never writes:
    [resolve_voice_id] makes at most one provider call, the catalog
    request, and everything else it does is printing. *)
Theorem resolve_voice_id_only_reads api_key args w :
  Forall (print_or_catalog api_key) (fst (resolve_voice_id api_key args w))
  /\ (length (provider_calls (fst (resolve_voice_id api_key args w))) <= 1)%nat.
Proof.
  assert (Hcalls : forall tr, Forall (fun e => exists line, e = Print line) tr ->
                              provider_calls tr = []).
  { induction 1 as [|e tr [line ->] _ IH]; [reflexivity | exact IH]. }
  destruct (resolve_voice_id_events api_key args w) as [-> | (tr & -> & Hp)].
  - split; [constructor | cbn; lia].
  - split.
    + constructor; [right; reflexivity|].
      eapply Forall_impl; [exact Hp|]. intros e He. left. exact He.
    + cbn [provider_calls]. rewrite (Hcalls tr Hp). cbn. lia.
Qed.

End Catalog.


Lemma resolve_text_silent args w : fst (resolve_text args w) = [].
Proof.
  unfold resolve_text.
  destruct (truthy (of_opt (Args.text args))); [reflexivity|].
  destruct (truthy (of_opt (Args.text_file args))).
  - rewrite bind_ask. destruct (read_text w _); reflexivity.
  - rewrite bind_ask. destruct (stdin_isatty w); cbn [negb]; [reflexivity|].
    rewrite bind_ask. reflexivity.
Qed.




Section Flow.
Context `{JsonLib}.


(** X13.  [synthesize] writes the output file exactly when the provider
    accepts the call, with exactly the bytes of the answer, and then
    reports it; when the provider refuses, nothing is written or printed
    and the failure carries the status and the body of the answer. *)
Theorem synthesize_outcome api_key voice_id text output_path model_id output_format
    logging settings w :
  synthesize api_key voice_id text output_path model_id output_format logging settings w
  = if ok (provider w (synthesis_call api_key voice_id text model_id output_format
                         logging settings))
    then ([ Http (synthesis_call api_key voice_id text model_id output_format logging
                    settings);
            WriteBytes output_path
              (content (provider w (synthesis_call api_key voice_id text model_id
                                      output_format logging settings)));
            Print ("Saved audio to " +:+ output_path) ], Ok tt)
    else ([ Http (synthesis_call api_key voice_id text model_id output_format logging
                    settings) ],
          Raise (SystemExit
                   (VStr (synthesis_failure
                            (provider w (synthesis_call api_key voice_id text model_id
                                           output_format logging settings)))))).
Proof.
  unfold synthesize, bind at 1. rewrite synthesize_bytes_run. cbv zeta.
  destruct (ok (provider w _)); reflexivity.
Qed.

End Flow.


(** *** [main] *)

Section Main.
Context `{JsonLib}.

Lemma bind_run_nil {A B} (c : M A) (k : A -> M B) w a :
  c w = ([], Ok a) -> (let* x := c in k x) w = k a w.
Proof. intros Hc. unfold bind. rewrite Hc. destruct (k a w). reflexivity. Qed.

Lemma bind_out {A B} (c : M A) (k : A -> M B) w :
  (let* x := c in k x) w
  = match c w with
    | (tr, Ok a) => (tr ++ fst (k a w), snd (k a w))
    | (tr, Raise e) => (tr, Raise e)
    end.
Proof. unfold bind. destruct (c w) as [tr [a|e]]; [destruct (k a w)|]; reflexivity. Qed.

Lemma get_api_key_run w :
  get_api_key w
  = ([], if truthy (of_opt (environ w "ELEVENLABS_API_KEY"))
         then Ok (api_key_of w)
         else Raise (SystemExit (VStr "Set ELEVENLABS_API_KEY in .env (project-local)"))).
Proof.
  unfold get_api_key, getenv, api_key_of. rewrite bind_ask.
  destruct (truthy (of_opt (environ w "ELEVENLABS_API_KEY"))); reflexivity.
Qed.

Lemma printed_lines tr :
  Forall (fun e => exists line, e = Print line) tr -> exists lines, tr = map Print lines.
Proof.
  induction 1 as [|e tr [line ->] _ [lines ->]]; [exists []; reflexivity|].
  exists (line :: lines). reflexivity.
Qed.

Lemma main_settings_run args w :
  (if truthy (of_opt (Args.voice_settings args))
   then match json_loads (py_str (of_opt (Args.voice_settings args))) with
        | Decoded v => ret v
        | JSONDecodeError exc =>
            raise (SystemExit (VStr ("Invalid --voice-settings JSON: " +:+ exc)))
        end
   else ret VNone) w
  = ([], cli_settings args).
Proof.
  unfold cli_settings. destruct (truthy (of_opt (Args.voice_settings args))); [|reflexivity].
  destruct (json_loads _); reflexivity.
Qed.

(** X14.  Without an API key [main] does nothing: whatever the
    arguments, it makes no provider call, prints nothing, writes and
    plays nothing, and ends asking for the key. *)
Theorem main_needs_api_key args w :
  truthy (of_opt (environ w "ELEVENLABS_API_KEY")) = false ->
  main args w
  = ([], Raise (SystemExit (VStr "Set ELEVENLABS_API_KEY in .env (project-local)"))).
Proof.
  intros Hkey. unfold main.
  apply bind_run_Raise. rewrite get_api_key_run, Hkey. reflexivity.
Qed.

(** X15.  With [--list-voices], [main] only lists: it makes the catalog
    request and prints lines, and does nothing else, whatever the other
    options ([--serve], a text, a voice) are. *)
Theorem main_list_voices_only_lists args w :
  truthy (of_opt (environ w "ELEVENLABS_API_KEY")) = true ->
  Args.list_voices args = true ->
  exists lines,
    fst (main args w) = Http (voices_call (api_key_of w)) :: map Print lines.
Proof.
  intros Hkey Hlist. unfold main.
  rewrite (bind_run_nil _ _ w (api_key_of w)) by (rewrite get_api_key_run, Hkey; reflexivity).
  rewrite Hlist. unfold bind at 1. rewrite list_voices_run.
  destruct (if ok _ then _ else _) as [voices|e]; [|exists []; reflexivity].
  unfold bind, lift. destruct (py_iter voices) as [vs|e]; [|exists []; reflexivity].
  destruct (printed_lines _ (print_voices_prints vs w)) as [lines Hlines].
  exists lines. destruct (print_voices vs w) as [tr r]. cbn [fst] in *. subst tr.
  cbn; rewrite ?app_nil_r; reflexivity.
Qed.

(** X16.  Voice settings that do not decode stop [main] before the
    synthesis: it ends with an error, and all it has done is the catalog
    request and printing: no synthesis call, no file, no playback. *)
Theorem main_invalid_settings_sends_nothing args w e :
  Args.list_voices args = false ->
  Args.serve args = false ->
  cli_settings args = Raise e ->
  Forall (print_or_catalog (api_key_of w)) (fst (main args w))
  /\ exists e', snd (main args w) = Raise e'.
Proof.
  intros Hlist Hserve Hsettings. unfold main. rewrite bind_out, get_api_key_run.
  destruct (truthy (of_opt (environ w "ELEVENLABS_API_KEY"))).
  2: { cbn [fst snd]. split; [constructor | eexists; reflexivity]. }
  rewrite Hlist, Hserve. cbn [app].
  pose proof (resolve_voice_id_quiet (api_key_of w) args w) as Hquiet.
  rewrite bind_out.
  destruct (resolve_voice_id (api_key_of w) args w) as [tr [voice|e1]]; cbn [fst] in Hquiet.
  2: { cbn [fst snd]. split; [exact Hquiet | eexists; reflexivity]. }
  rewrite bind_out. pose proof (resolve_text_silent args w) as Hsilent.
  destruct (resolve_text args w) as [tr1 [text|e1]]; cbn [fst] in Hsilent; subst tr1.
  2: { cbn [fst snd]. rewrite app_nil_r. split; [exact Hquiet | eexists; reflexivity]. }
  rewrite bind_out, main_settings_run, Hsettings.
  cbn [fst snd app]. rewrite app_nil_r. split; [exact Hquiet | eexists; reflexivity].
Qed.


Lemma load_voice_map_silent w : fst (load_voice_map w) = [].
Proof.
  unfold load_voice_map, getenv. rewrite bind_ask.
  destruct (negb (truthy _)); [reflexivity|].
  destruct (json_loads _) as [[| | | | |items]|]; reflexivity.
Qed.

Lemma serve_quiet api_key args w :
  Forall (print_or_catalog api_key) (fst (serve api_key args w)).
Proof.
  unfold serve. rewrite bind_out. pose proof (load_voice_map_silent w) as Hsilent.
  destruct (load_voice_map w) as [tr0 [voice_map|e]]; cbn [fst] in Hsilent; subst tr0;
    [|constructor].
  cbn [app]. unfold getenv at 1. rewrite bind_ask, bind_out.
  destruct (_ || _).
  - pose proof (resolve_voice_id_quiet api_key args w) as Hquiet.
    destruct (resolve_voice_id api_key args w) as [tr [voice|e]]; cbn [fst] in *;
      [|exact Hquiet].
    rewrite bind_emit. cbn [fst ret]. apply Forall_app. split; [exact Hquiet|].
    repeat constructor. eexists. reflexivity.
  - cbn [ret app]. rewrite bind_emit. cbn [fst ret].
    repeat constructor. eexists. reflexivity.
Qed.

(** X18.  Whatever the arguments and the world, what [main] does (in
    gateway mode: until the server starts) is reading and printing (the
    catalog request and printed lines), followed by at most one
    synthesis call; the output file is written
    only after that call, once, with the save reported; and the file is
    played only after it was written and never with [--no-play]. *)
Theorem main_trace_shape args w :
  exists quiet rest,
    fst (main args w) = quiet ++ rest
    /\ Forall (print_or_catalog (api_key_of w)) quiet
    /\ (rest = []
        \/ exists r,
            hmethod r = "POST"
            /\ (rest = [Http r]
                \/ exists data,
                    rest = [ Http r; WriteBytes (Args.output args) data;
                             Print ("Saved audio to " +:+ Args.output args) ]
                           ++ (if Args.no_play args then []
                               else [PlayAudio (Args.output args)]))).
Proof.
  unfold main. rewrite bind_out, get_api_key_run.
  destruct (truthy (of_opt (environ w "ELEVENLABS_API_KEY"))).
  2: { exists [], []. cbn. split; [reflexivity|]. split; [constructor | left; reflexivity]. }
  cbn [app]. destruct (Args.list_voices args).
  { rewrite bind_out, list_voices_run.
    destruct (if ok _ then _ else _) as [voices|e].
    2: { eexists _, []. split; [symmetry; apply app_nil_r|].
         split; [|left; reflexivity]. cbn [fst]. constructor; [right; reflexivity | constructor]. }
    rewrite bind_out. unfold lift at 1.
    destruct (py_iter voices) as [vs|e].
    2: { eexists _, []. split; [symmetry; apply app_nil_r|].
         split; [|left; reflexivity]. cbn [fst]. constructor; [right; reflexivity | constructor]. }
    eexists _, []. split; [symmetry; apply app_nil_r|]. split; [|left; reflexivity].
    cbn [fst app]. constructor; [right; reflexivity|].
    eapply Forall_impl; [apply (print_voices_prints vs w)|]. intros e He. left. exact He. }
  destruct (Args.serve args).
  { rewrite bind_out. pose proof (serve_quiet (api_key_of w) args w) as Hquiet.
    destruct (serve (api_key_of w) args w) as [tr [config|e]]; cbn [fst] in Hquiet.
    - eexists _, []. split; [symmetry; apply app_nil_r|]. split; [|left; reflexivity].
      cbn. rewrite app_nil_r. exact Hquiet.
    - eexists _, []. split; [symmetry; apply app_nil_r|]. split; [|left; reflexivity].
      exact Hquiet. }
  rewrite bind_out. pose proof (resolve_voice_id_quiet (api_key_of w) args w) as Hquiet.
  destruct (resolve_voice_id (api_key_of w) args w) as [tr [voice|e]]; cbn [fst] in Hquiet.
  2: { exists tr, []. split; [symmetry; apply app_nil_r|].
       split; [exact Hquiet | left; reflexivity]. }
  rewrite bind_out. pose proof (resolve_text_silent args w) as Hsilent.
  destruct (resolve_text args w) as [tr1 [text|e]]; cbn [fst] in Hsilent; subst tr1.
  2: { exists tr, []. cbn [fst]. split; [reflexivity|].
       split; [exact Hquiet | left; reflexivity]. }
  rewrite bind_out, main_settings_run.
  destruct (cli_settings args) as [settings|e].
  2: { exists tr, []. cbn [fst app]. split; [reflexivity|].
       split; [exact Hquiet | left; reflexivity]. }
  cbn [app]. rewrite bind_out. unfold synthesize. rewrite bind_out, synthesize_bytes_run.
  cbv zeta. destruct (ok (provider w _)).
  - eexists tr, _. cbn [fst]. split; [reflexivity|]. split; [exact Hquiet|].
    right. eexists (synthesis_call _ _ _ _ _ _ _). split; [reflexivity|]. right. eexists.
    destruct (Args.no_play args); reflexivity.
  - eexists tr, _. cbn [fst]. split; [reflexivity|]. split; [exact Hquiet|].
    right. eexists (synthesis_call _ _ _ _ _ _ _). split; [reflexivity|]. left. reflexivity.
Qed.

(** X27.  Started with no voice id, no voice name and no default voice
    in the environment, the gateway does not contact the provider: the
    configuration [serve] builds has no default voice, and all [serve]
    has done is announcing the address. *)
Theorem serve_without_voice_is_offline api_key args w :
  truthy (of_opt (Args.voice_id args)) = false ->
  truthy (of_opt (Args.voice_name args)) = false ->
  truthy (of_opt (environ w "ELEVENLABS_VOICE_ID")) = false ->
  provider_calls (fst (serve api_key args w)) = []
  /\ (forall config,
         snd (serve api_key args w) = Ok config ->
         ServerConfig.default_voice_id config = VNone
         /\ fst (serve api_key args w)
            = [Print ("TTS server listening on http://" +:+ Args.host args +:+ ":"
                      +:+ pretty (Args.port args) +:+ "/tts")]).
Proof.
  intros Hid Hname Henv. unfold serve. rewrite bind_out.
  pose proof (load_voice_map_silent w) as Hsilent.
  destruct (load_voice_map w) as [tr0 [voice_map|e]]; cbn [fst] in Hsilent; subst tr0.
  2: { split; [reflexivity | discriminate]. }
  cbn [app]. unfold getenv. rewrite bind_ask, Hid, Hname, Henv. cbn [orb].
  rewrite bind_ret, bind_emit. cbn [fst snd ret]. split; [reflexivity|].
  intros config Hconfig. injection Hconfig as <-. split; reflexivity.
Qed.

(** X28.  A voice map that is set but is not the text of a JSON object
    stops [serve] at once, before any provider call and before the
    address is announced, even when a voice has to be resolved. *)
Theorem serve_rejects_malformed_voice_map api_key args w raw :
  environ w "ELEVENLABS_VOICE_MAP" = Some raw ->
  raw <> "" ->
  (forall exc,
      json_loads raw = JSONDecodeError exc ->
      serve api_key args w
      = ([], Raise (SystemExit (VStr ("Invalid ELEVENLABS_VOICE_MAP JSON: " +:+ exc)))))
  /\ (forall payload,
         json_loads raw = Decoded payload ->
         is_dict payload = false ->
         serve api_key args w
         = ([], Raise (SystemExit (VStr "ELEVENLABS_VOICE_MAP must be a JSON object")))).
Proof.
  intros Hraw Hne. apply truthy_str in Hne.
  assert (Hmap : forall r, load_voice_map w = ([], Raise r) ->
                           serve api_key args w = ([], Raise r)).
  { intros r Hr. unfold serve. apply bind_run_Raise, Hr. }
  split.
  - intros exc Hexc. apply Hmap. unfold load_voice_map, getenv.
    rewrite bind_ask, Hraw. cbn [of_opt py_str]. rewrite Hne, Hexc. reflexivity.
  - intros payload Hpayload Hdict. apply Hmap. unfold load_voice_map, getenv.
    rewrite bind_ask, Hraw. cbn [of_opt py_str]. rewrite Hne, Hpayload.
    destruct payload; try reflexivity. discriminate.
Qed.

End Main.

(** X14, at the command line with no option in a world with an empty
    environment. *)
Lemma main_needs_api_key_witness :
  main (H := RefJson.lib) no_args bare_world
  = ([], Raise (SystemExit (VStr "Set ELEVENLABS_API_KEY in .env (project-local)"))).
Proof. exact (main_needs_api_key (H := RefJson.lib) no_args bare_world eq_refl). Defined.

(** X15, at [--list-voices --text hi] with the catalog of Adam and
    Nadia. *)
Lemma main_list_voices_only_lists_witness :
  exists lines,
    fst (main (H := RefJson.lib) (with_list_voices (with_text "hi" no_args))
           (cli_world None [adam; nadia]))
    = Http (voices_call "key") :: map Print lines.
Proof.
  exact (main_list_voices_only_lists (H := RefJson.lib)
           (with_list_voices (with_text "hi" no_args)) (cli_world None [adam; nadia])
           eq_refl eq_refl).
Defined.

(** X16, at [--voice-id v1 --text hi --voice-settings "{"]. *)
Lemma main_invalid_settings_sends_nothing_witness :
  Forall (print_or_catalog "key")
    (fst (main (H := RefJson.lib)
            (with_voice_settings "{" (with_text "hi" (with_voice_id "v1" no_args)))
            (cli_world None [])))
  /\ exists e',
      snd (main (H := RefJson.lib)
             (with_voice_settings "{" (with_text "hi" (with_voice_id "v1" no_args)))
             (cli_world None []))
      = Raise e'.
Proof.
  exact (main_invalid_settings_sends_nothing (H := RefJson.lib)
           (with_voice_settings "{" (with_text "hi" (with_voice_id "v1" no_args)))
           (cli_world None [])
           (SystemExit (VStr "Invalid --voice-settings JSON: Expecting value"))
           eq_refl eq_refl eq_refl).
Defined.


(** X27, at the command line with no option in a world with an empty
    environment. *)
Lemma serve_without_voice_is_offline_witness :
  provider_calls (fst (serve (H := RefJson.lib) "key" no_args bare_world)) = [].
Proof.
  exact (proj1 (serve_without_voice_is_offline (H := RefJson.lib) "key" no_args bare_world
                  eq_refl eq_refl eq_refl)).
Defined.

(** X28, at [--voice-name adam] with the voice map [[1]], which is not
    an object, and with the voice map [{], which does not decode. *)
Lemma serve_rejects_malformed_voice_map_witness :
  serve (H := RefJson.lib) "key" (with_voice_name "adam" no_args) (voice_map_world "[1]")
  = ([], Raise (SystemExit (VStr "ELEVENLABS_VOICE_MAP must be a JSON object")))
  /\ serve (H := RefJson.lib) "key" (with_voice_name "adam" no_args) (voice_map_world "{")
     = ([], Raise (SystemExit
                     (VStr "Invalid ELEVENLABS_VOICE_MAP JSON: Expecting value"))).
Proof.
  split.
  - refine (proj2 (serve_rejects_malformed_voice_map (H := RefJson.lib) "key"
                     (with_voice_name "adam" no_args) (voice_map_world "[1]") "[1]"
                     eq_refl _) (VList [VInt 1]) eq_refl eq_refl).
    discriminate.
  - refine (proj1 (serve_rejects_malformed_voice_map (H := RefJson.lib) "key"
                     (with_voice_name "adam" no_args) (voice_map_world "{") "{"
                     eq_refl _) "Expecting value" eq_refl).
    discriminate.
Defined.

(** *** The gateway, continued *)

Section GatewayMore.
Context `{JsonLib}.

Lemma do_POST_loaded config request w :
  Request.path request = "/tts" ->
  do_POST config request w
  = match read_payload request with
    | Raise e => ([], Raise e)
    | Ok (JSONDecodeError _) => (json_response config 400 (error_envelope "Invalid JSON"), Ok tt)
    | Ok (Decoded (VDict items)) => do_POST config request w
    | Ok (Decoded _) => ([], Raise AttributeError)
    end.
Proof.
  intros Hpath. destruct (read_payload request) as [[payload|exc]|e] eqn:Hload.
  - destruct payload; try reflexivity;
      unfold do_POST; rewrite Hpath, Hload;
      change (negb (String.eqb "/tts" "/tts")) with false; cbv iota;
      rewrite bind_lift_Ok; reflexivity.
  - unfold do_POST. rewrite Hpath, Hload.
    change (negb (String.eqb "/tts" "/tts")) with false. cbv iota.
    rewrite bind_lift_Ok. reflexivity.
  - unfold do_POST. rewrite Hpath, Hload. reflexivity.
Qed.




(** X22.  Whatever the request, [do_POST] either ends with an uncaught
    exception having sent nothing, or sends exactly one response: its
    status is 200, 400, 404 or 502, it carries the configured
    allow-origin header, at most one provider call was made, and none
    when the status is 400 or 404. *)
Theorem gateway_answers_once config request w :
  (exists e, do_POST config request w = ([], Raise e))
  \/ (snd (do_POST config request w) = Ok tt
      /\ exists status,
          statuses (fst (do_POST config request w)) = [status]
          /\ In status [200; 400; 404; 502]
          /\ In (SendHeader "Access-Control-Allow-Origin" (ServerConfig.cors_origin config))
               (fst (do_POST config request w))
          /\ (length (provider_calls (fst (do_POST config request w))) <= 1)%nat
          /\ (status = 400 \/ status = 404 ->
              provider_calls (fst (do_POST config request w)) = [])).
Proof.
  assert (Hjson : forall status payload,
             In status [200; 400; 404; 502] -> status = 400 \/ status = 404 ->
             exists status',
               statuses (json_response config status payload) = [status']
               /\ In status' [200; 400; 404; 502]
               /\ In (SendHeader "Access-Control-Allow-Origin"
                        (ServerConfig.cors_origin config))
                    (json_response config status payload)
               /\ (length (provider_calls (json_response config status payload)) <= 1)%nat
               /\ (status' = 400 \/ status' = 404 ->
                   provider_calls (json_response config status payload) = [])).
  { intros status payload Hin Hs. exists status. cbn. repeat split; auto 10. }
  destruct (String.eqb (Request.path request) "/tts") eqn:Hpath.
  2: { right. unfold do_POST. rewrite Hpath. cbn [negb]. rewrite send_json_run.
       split; [reflexivity|]. apply Hjson; cbn; auto. }
  apply String.eqb_eq in Hpath. rewrite (do_POST_loaded config request w Hpath).
  destruct (read_payload request) as [[payload|exc]|e] eqn:Hload.
  3: { left. eexists. reflexivity. }
  2: { right. split; [reflexivity|]. apply Hjson; cbn; auto. }
  destruct payload as [| | | | |items]; try (left; eexists; reflexivity).
  rewrite (do_POST_object config request items w Hpath Hload).
  destruct (negb (truthy (VStr (body_text items)))).
  { right. split; [reflexivity|]. apply Hjson; cbn; auto. }
  destruct (negb (truthy (gateway_chain config items))).
  { right. split; [reflexivity|]. apply Hjson; cbn; auto. }
  destruct (refused_settings (field items "voice_settings")).
  { right. split; [reflexivity|]. apply Hjson; cbn; auto. }
  right. unfold forwarded. destruct (ok (provider w _)).
  - split; [reflexivity|]. exists 200. cbn.
    repeat split; try (intros [Hs | Hs]; discriminate Hs); auto 10.
  - split; [reflexivity|]. exists 502. cbn.
    repeat split; try (intros [Hs | Hs]; discriminate Hs); auto 10.
Qed.

End GatewayMore.

(** *** The voice map *)

Lemma voice_map_items_app items1 :
  forall items2 (m : gmap string string),
    voice_map_items (items1 ++ items2) m = voice_map_items items2 (voice_map_items items1 m).
Proof.
  induction items1 as [|[key value] items1 IH]; intros items2 m; [reflexivity|].
  cbn [app voice_map_items]. destruct (is_none value); apply IH.
Qed.

Lemma voice_map_items_untouched items :
  forall (m : gmap string string) k,
    (forall key value, In (key, value) items -> value <> VNone -> normalized key <> k) ->
    voice_map_items items m !! k = m !! k.
Proof.
  induction items as [|[key value] items IH]; intros m k Hother; [reflexivity|].
  cbn [voice_map_items].
  assert (Hrest : forall key' value', In (key', value') items -> value' <> VNone ->
                                      normalized key' <> k).
  { intros key' value' Hin. apply Hother. right. exact Hin. }
  destruct (is_none value) eqn:Hnone; [apply IH, Hrest|].
  rewrite (IH _ _ Hrest). apply lookup_insert_ne.
  apply (Hother key value); [left; reflexivity|]. intros ->. discriminate.
Qed.

Lemma voice_map_items_last before key value after (m : gmap string string) :
  value <> VNone ->
  (forall key' value', In (key', value') after -> value' <> VNone ->
                       normalized key' <> normalized key) ->
  voice_map_items (before ++ (key, value) :: after) m !! normalized key
  = Some (Py.strip (py_str value)).
Proof.
  intros Hvalue Hlater. rewrite voice_map_items_app. cbn [voice_map_items].
  destruct (is_none value) eqn:Hnone; [destruct value; try discriminate; contradiction|].
  rewrite (voice_map_items_untouched after _ _ Hlater). apply lookup_insert_eq.
Qed.

Lemma py_str_or_empty s : py_str (py_or (VStr s) (VStr "")) = s.
Proof.
  unfold py_or. cbn. destruct (String.eqb s "") eqn:He; cbn; [|reflexivity].
  apply String.eqb_eq in He. subst s. reflexivity.
Qed.

Lemma py_str_name_only s : py_str (py_or (py_or (VStr s) VNone) (VStr "")) = s.
Proof.
  unfold py_or. cbn. destruct (String.eqb s "") eqn:He; cbn; [|rewrite He; reflexivity].
  apply String.eqb_eq in He. subst s. reflexivity.
Qed.

Lemma text_and_name_reading text name :
  body_text [("text", VStr text); ("name", VStr name)] = Py.strip text
  /\ body_voice_id [("text", VStr text); ("name", VStr name)] = ""
  /\ speaker_name [("text", VStr text); ("name", VStr name)] = name
  /\ field [("text", VStr text); ("name", VStr name)] "voice_settings" = VNone.
Proof.
  unfold body_text, body_voice_id, speaker_name, field.
  cbn [assoc String.eqb Ascii.eqb Bool.eqb default from_option id].
  rewrite py_str_or_empty, py_str_name_only. repeat split.
Qed.

Section VoiceMap.
Context `{JsonLib}.




End VoiceMap.

(** *** Instances of the further properties *)

(** X7, at a provider whose catalog is Adam and at one that refuses. *)
Lemma list_voices_outcome_witness :
  snd (list_voices (H := RefJson.lib) "key" (cli_world None [adam])) = Ok (VList [adam])
  /\ snd (list_voices (H := RefJson.lib) "key" (keyed_world refusing))
     = Raise (SystemExit (VStr "List voices failed (401): denied")).
Proof.
  split.
  - exact (proj1 (proj2 (proj2 (list_voices_outcome (H := RefJson.lib) "key"
                                  (cli_world None [adam]))))
             [("voices", VList [adam])] eq_refl eq_refl).
  - exact (proj1 (proj2 (list_voices_outcome (H := RefJson.lib) "key"
                           (keyed_world refusing))) eq_refl).
Defined.

(** X8, at the catalog of Adam, a string and Nadia. *)
Lemma print_voices_until_malformed_witness :
  print_voices [adam; VStr "x"; nadia] bare_world
  = ([Print "Adam [premade] - id-adam"], Raise AttributeError).
Proof.
  apply (print_voices_until_malformed [adam] [VStr "x"; nadia] bare_world).
  - repeat constructor.
  - reflexivity.
Defined.




(** X23, at the same request. *)
Lemma gateway_forwards_nonempty_witness :
  exists voice text,
    voice <> "" /\ text <> ""
    /\ url (gateway_call mapped_config [("text", VStr "hi"); ("name", VStr "Bob")])
       = synthesis_url voice
    /\ call_text (gateway_call mapped_config [("text", VStr "hi"); ("name", VStr "Bob")])
       = Some (VStr text).
Proof.
  apply (gateway_forwards_nonempty (H := RefJson.lib) mapped_config
           (post_tts (VDict [("text", VStr "hi"); ("name", VStr "Bob")])) bare_world).
  - left. reflexivity.
  - vm_compute. left. reflexivity.
Defined.



